(* Verification development for the session-scoped access control and
   agent dispatch core of the Shinobi C2 agent service
   (scripts/agent_service.py, scripts/agents/base_agent.py,
   scripts/agents/orchestrator_agent.py).

   Python values crossing the tool/hook boundary are JSON documents; they
   are modelled by [json].  Python dicts with string keys are association
   lists without duplicate keys ([dict]); Python sets of strings are
   stdpp's [gset string]; the session registry [_active_sessions] is a
   [gmap string session]. *)

From Stdlib Require Import ZArith Ascii String List Bool Lia.
From stdpp Require Import base gmap strings list pretty.

#[local] Set Warnings "-register-all".
Local Open Scope string_scope.
Local Infix "+++" := String.append (at level 60, right associativity).

(* ------------------------------------------------------------------ *)
(** * Python values *)

Inductive json : Type :=
| JNull
| JBool (b : bool)
| JInt (z : Z)
| JFloat (lit : string)          (* a float, kept as its literal text *)
| JStr (s : string)
| JList (l : list json)
| JObj (kvs : list (string * json)).

Abbreviation dict := (list (string * json)).

(** Python exceptions that the modelled code can raise: the exception
    class and [str(e)]. *)
Record py_exc := mk_exc { exc_type : string; exc_str : string }.

Inductive outcome (A : Type) : Type :=
| Ok (a : A)
| Raise (exc : py_exc).
Arguments Ok {A} a.
Arguments Raise {A} exc.

(** [key in d] and [d.get(key)] on a dict (keys are unique). *)
Fixpoint dict_get (k : string) (d : dict) : option json :=
  match d with
  | [] => None
  | (k', v) :: d' => if String.eqb k k' then Some v else dict_get k d'
  end.

Definition dict_has (k : string) (d : dict) : bool :=
  match dict_get k d with Some _ => true | None => false end.

(** Python truthiness.  A float is falsy when its mantissa digits are all
    zero (underflow of tiny literals to 0.0 is not modelled). *)
Fixpoint mantissa_zero (s : string) : bool :=
  match s with
  | EmptyString => true
  | String c s' =>
      if ascii_dec c "e" then true
      else if ascii_dec c "E" then true
      else if ascii_dec c "0" then mantissa_zero s'
      else if ascii_dec c "-" then mantissa_zero s'
      else if ascii_dec c "." then mantissa_zero s'
      else false
  end.

Definition py_truthy (v : json) : bool :=
  match v with
  | JNull => false
  | JBool b => b
  | JInt z => negb (Z.eqb z 0)
  | JFloat lit => negb (mantissa_zero lit)
  | JStr s => negb (String.eqb s EmptyString)
  | JList l => negb (Nat.eqb (length l) 0)
  | JObj kvs => negb (Nat.eqb (length kvs) 0)
  end.

(** The double quote character. *)
Definition dq : ascii := ascii_of_nat 34.
Definition dqs : string := String dq EmptyString.

(** [repr] of a string: single quotes unless the text contains a single
    quote and no double quote; backslash, the chosen quote and newline,
    carriage return and tab are escaped. *)
Fixpoint str_has (c : ascii) (s : string) : bool :=
  match s with
  | EmptyString => false
  | String c' s' => if ascii_dec c c' then true else str_has c s'
  end.

Fixpoint repr_escape (q : ascii) (s : string) : string :=
  match s with
  | EmptyString => EmptyString
  | String c s' =>
      let e := if ascii_dec c "\" then "\\"
               else if ascii_dec c q then String "\" (String q EmptyString)
               else if ascii_dec c (ascii_of_nat 10) then "\n"
               else if ascii_dec c (ascii_of_nat 13) then "\r"
               else if ascii_dec c (ascii_of_nat 9) then "\t"
               else String c EmptyString in
      e +++ repr_escape q s'
  end.

Definition py_repr_str (s : string) : string :=
  let q := if str_has "'"%char s && negb (str_has dq s) then dq else "'"%char in
  String q (repr_escape q s +++ String q EmptyString).

Fixpoint join (sep : string) (l : list string) : string :=
  match l with
  | [] => EmptyString
  | [x] => x
  | x :: l' => x +++ sep +++ join sep l'
  end.

(** [repr(v)] and [str(v)] of a value. *)
Fixpoint py_repr (v : json) : string :=
  match v with
  | JNull => "None"
  | JBool true => "True"
  | JBool false => "False"
  | JInt z => pretty z
  | JFloat lit => lit
  | JStr s => py_repr_str s
  | JList l => "[" +++ join ", " (map py_repr l) +++ "]"
  | JObj kvs =>
      "{" +++ join ", " (map (fun kv => py_repr_str (fst kv) +++ ": " +++ py_repr (snd kv)) kvs)
          +++ "}"
  end.

Definition py_str (v : json) : string :=
  match v with
  | JStr s => s
  | _ => py_repr v
  end.

Definition py_type_name (v : json) : string :=
  match v with
  | JNull => "NoneType" | JBool _ => "bool" | JInt _ => "int" | JFloat _ => "float"
  | JStr _ => "str" | JList _ => "list" | JObj _ => "dict"
  end.

(** [for x in v]: lists yield their items, strings their characters, dicts
    their keys; anything else raises a TypeError. *)
Fixpoint str_chars (s : string) : list json :=
  match s with
  | EmptyString => []
  | String c s' => JStr (String c EmptyString) :: str_chars s'
  end.

Definition py_iter (v : json) : outcome (list json) :=
  match v with
  | JList l => Ok l
  | JStr s => Ok (str_chars s)
  | JObj kvs => Ok (map (fun kv => JStr (fst kv)) kvs)
  | _ => Raise (mk_exc "TypeError" ("'" +++ py_type_name v +++ "' object is not iterable"))
  end.

(** [x in some_set_of_str]: lists and dicts are unhashable. *)
Definition py_in_strset (v : json) (S : list string) : outcome bool :=
  match v with
  | JList _ | JObj _ => Raise (mk_exc "TypeError" ("unhashable type: '" +++ py_type_name v +++ "'"))
  | JStr s => Ok (bool_decide (s ∈ S))
  | _ => Ok false
  end.

(* ------------------------------------------------------------------ *)
(** * Session registry (agent_service.py, "Session Security") *)

Record session := mk_session {
  allowed_uuids : gset string;
  allowed_collections : gset string;
  created_at : Z;
  agent_type : string;
  primary_uuid : string;
  violation_count : nat
}.

Abbreviation registry := (gmap string session).

Definition bump_violations (s : session) : session :=
  {| allowed_uuids := allowed_uuids s;
     allowed_collections := allowed_collections s;
     created_at := created_at s;
     agent_type := agent_type s;
     primary_uuid := primary_uuid s;
     violation_count := S (violation_count s) |}.

(** [create_session]: [session_id] is the fresh [uuid.uuid4()] token and
    [now] the creation time; [additional_uuids] is [None] or a set. *)
Definition create_session (reg : registry) (session_id : string)
    (agent_type0 primary_uuid0 collection : string)
    (additional_uuids : option (gset string)) (now : Z) : string * registry :=
  let allowed :=
    match additional_uuids with
    | Some add => if decide (add = ∅) then {[primary_uuid0]} else {[primary_uuid0]} ∪ add
    | None => {[primary_uuid0]}
    end in
  let s := {| allowed_uuids := allowed;
              allowed_collections := {[collection]};
              created_at := now;
              agent_type := agent_type0;
              primary_uuid := primary_uuid0;
              violation_count := 0 |} in
  (session_id, <[session_id := s]> reg).

(** The ids a tool input references: the [keys] list, the singular [key],
    and the [id] of a nested [data] payload or of each payload in a
    [data] list. *)
Definition keys_ids (tool_input : dict) : outcome (gset string) :=
  match dict_get "keys" tool_input with
  | Some ks =>
      if py_truthy ks then
        match py_iter ks with
        | Ok items =>
            Ok (list_to_set (map py_str (List.filter py_truthy items)))
        | Raise e => Raise e
        end
      else Ok ∅
  | None => Ok ∅
  end.

Definition key_ids (tool_input : dict) : gset string :=
  match dict_get "key" tool_input with
  | Some k => if py_truthy k then {[py_str k]} else ∅
  | None => ∅
  end.

Definition payload_id (item : json) : gset string :=
  match item with
  | JObj d => match dict_get "id" d with Some i => {[py_str i]} | None => ∅ end
  | _ => ∅
  end.

Definition data_ids (tool_input : dict) : gset string :=
  match dict_get "data" tool_input with
  | Some (JObj d) => payload_id (JObj d)
  | Some (JList items) => ⋃ (map payload_id items)
  | _ => ∅
  end.

Definition requested_uuids (tool_input : dict) : outcome (gset string) :=
  match keys_ids tool_input with
  | Ok ks => Ok (ks ∪ key_ids tool_input ∪ data_ids tool_input)
  | Raise e => Raise e
  end.

Definition read_always_allowed : list string :=
  ["service_prompts"; "agent_logs"; "service_workflows"].

(** [tool_input.get("action") == "read"]. *)
Definition is_read_action (a : option json) : bool :=
  match a with Some (JStr s) => String.eqb s "read" | _ => false end.

(** The collection step: [Ok (Some c)] is the always-readable exemption,
    [Ok None] falls through to the id check. *)
Definition collection_exemption (tool_input : dict) : outcome (option string) :=
  match dict_get "collection" tool_input with
  | Some coll =>
      match py_in_strset coll read_always_allowed with
      | Raise e => Raise e
      | Ok true =>
          if is_read_action (dict_get "action" tool_input)
          then Ok (Some (py_str coll)) else Ok None
      | Ok false => Ok None
      end
  | None => Ok None
  end.

Definition unknown_session_reason : string :=
  "Invalid session ID - session expired or never existed".

Definition violation_msg (unauthorized : gset string) (s' : session) : string :=
  "ACCESS DENIED: Attempted to access unauthorized records. "
  +++ "Requested: " +++ py_repr (JList (map JStr (take 3 (elements unauthorized)))) +++ "... "
  +++ "Session allows: " +++ py_repr (JList (map JStr (take 3 (elements (allowed_uuids s'))))) +++ "... "
  +++ "Violation #" +++ pretty (violation_count s').

(** [validate_access]: the decision [(allowed, reason)] or the exception
    raised, and the registry afterwards. *)
Definition validate_access (reg : registry) (session_id tool_name : string)
    (tool_input : dict) : outcome (bool * string) * registry :=
  match reg !! session_id with
  | None => (Ok (false, unknown_session_reason), reg)
  | Some s =>
      if negb (String.prefix "mcp__directus__" tool_name)
      then (Ok (true, "Non-Directus tool - allowed"), reg)
      else
        match requested_uuids tool_input with
        | Raise e => (Raise e, reg)
        | Ok requested =>
            match collection_exemption tool_input with
            | Raise e => (Raise e, reg)
            | Ok (Some c) => (Ok (true, "Read from " +++ c +++ " always allowed"), reg)
            | Ok None =>
                if decide (requested = ∅) then (Ok (true, "Access validated"), reg)
                else
                  let unauthorized := requested ∖ allowed_uuids s in
                  if decide (unauthorized = ∅) then (Ok (true, "Access validated"), reg)
                  else
                    let s' := bump_violations s in
                    (Ok (false, violation_msg unauthorized s'), <[session_id := s']> reg)
            end
        end
  end.

Record summary := mk_summary {
  sum_session_id : string;
  sum_agent_type : string;
  sum_duration_seconds : Z;
  sum_violation_count : nat;
  sum_primary_uuid : string
}.

(** [end_session] returns either the summary dict or the dict
    [{"error": "Session not found"}]. *)
Inductive end_result :=
| EndSummary (sm : summary)
| EndError (msg : string).

Definition end_session (reg : registry) (session_id : string) (now : Z)
    : end_result * registry :=
  match reg !! session_id with
  | None => (EndError "Session not found", reg)
  | Some s =>
      (EndSummary {| sum_session_id := session_id;
                     sum_agent_type := agent_type s;
                     sum_duration_seconds := now - created_at s;
                     sum_violation_count := violation_count s;
                     sum_primary_uuid := primary_uuid s |},
       delete session_id reg)
  end.

Example validate_demo :
  let reg := snd (create_session ∅ "s1" "finance" "INV-1" "invoices" None 0) in
  fst (validate_access reg "s1" "mcp__directus__update_item" [("key", JStr "INV-2")])
  = Ok (false, "ACCESS DENIED: Attempted to access unauthorized records. Requested: ['INV-2']... Session allows: ['INV-1']... Violation #1").
Proof. vm_compute. reflexivity. Qed.

(* ------------------------------------------------------------------ *)
(** * The registry as a state machine *)

(** The registry operations as they are invoked by the service: the
    dispatcher ([create_session], [end_session]) and the PreToolUse hook
    endpoint ([validate_access]). *)
Inductive op :=
| OpCreate (session_id agent_type0 primary_uuid0 collection : string)
    (additional_uuids : option (gset string)) (now : Z)
| OpValidate (session_id tool_name : string) (tool_input : dict)
| OpEnd (session_id : string) (now : Z).

Inductive reply :=
| RCreated (session_id : string)
| RValidated (r : outcome (bool * string))
| REnded (r : end_result).

Definition step (reg : registry) (o : op) : reply * registry :=
  match o with
  | OpCreate sid at0 p c add now =>
      let '(sid', reg') := create_session reg sid at0 p c add now in (RCreated sid', reg')
  | OpValidate sid tn ti =>
      let '(r, reg') := validate_access reg sid tn ti in (RValidated r, reg')
  | OpEnd sid now =>
      let '(r, reg') := end_session reg sid now in (REnded r, reg')
  end.

(** Running a sequence of operations, with the log of replies. *)
Fixpoint run (reg : registry) (ops : list op) : registry * list (op * reply) :=
  match ops with
  | [] => (reg, [])
  | o :: ops' =>
      let '(r, reg1) := step reg o in
      let '(reg2, log) := run reg1 ops' in
      (reg2, (o, r) :: log)
  end.

(** [uuid.uuid4()] issues a token that no live session holds. *)
Definition fresh_op (reg : registry) (o : op) : Prop :=
  match o with
  | OpCreate sid _ _ _ _ _ => reg !! sid = None
  | _ => True
  end.

Inductive reachable : registry -> Prop :=
| reach_empty : reachable ∅
| reach_step reg o : reachable reg -> fresh_op reg o -> reachable (snd (step reg o)).


(** Operations that do not create a session under token [sid]. *)
Definition no_create (sid : string) (o : op) : bool :=
  match o with
  | OpCreate sid' _ _ _ _ _ => negb (String.eqb sid sid')
  | _ => true
  end.



(** Two sessions agree on every field but [violation_count]. *)
Definition same_but_count (s s' : session) : Prop :=
  allowed_uuids s' = allowed_uuids s /\
  allowed_collections s' = allowed_collections s /\
  created_at s' = created_at s /\
  agent_type s' = agent_type s /\
  primary_uuid s' = primary_uuid s.

(** Every live session holds its primary id. *)
Definition registry_inv (reg : registry) : Prop :=
  forall sid s, reg !! sid = Some s -> primary_uuid s ∈ allowed_uuids s.

(* ------------------------------------------------------------------ *)
(** * Conversation driver (base_agent.py, [BaseAgent.invoke_with_tools]) *)

(** [json.dumps] with its default separators and [ensure_ascii]. *)
Definition hex_digit (n : nat) : ascii :=
  if Nat.ltb n 10 then ascii_of_nat (48 + n) else ascii_of_nat (87 + n).

Definition json_escape_char (c : ascii) : string :=
  let n := nat_of_ascii c in
  if ascii_dec c dq then String "\" dqs
  else if ascii_dec c "\" then "\\"
  else if Nat.eqb n 10 then "\n"
  else if Nat.eqb n 13 then "\r"
  else if Nat.eqb n 9 then "\t"
  else if Nat.eqb n 8 then "\b"
  else if Nat.eqb n 12 then "\f"
  else if Nat.ltb n 32 || Nat.leb 127 n then
    String "\" (String "u" (String "0" (String "0"
      (String (hex_digit (n / 16)) (String (hex_digit (n mod 16)) EmptyString)))))
  else String c EmptyString.

Fixpoint json_escape (s : string) : string :=
  match s with
  | EmptyString => EmptyString
  | String c s' => json_escape_char c +++ json_escape s'
  end.

Fixpoint json_dumps (v : json) : string :=
  match v with
  | JNull => "null"
  | JBool true => "true"
  | JBool false => "false"
  | JInt z => pretty z
  | JFloat lit => lit
  | JStr s => dqs +++ json_escape s +++ dqs
  | JList l => "[" +++ join ", " (map json_dumps l) +++ "]"
  | JObj kvs =>
      "{" +++ join ", " (map (fun kv => dqs +++ json_escape (fst kv) +++ dqs +++ ": " +++ json_dumps (snd kv)) kvs)
          +++ "}"
  end.

(** Content blocks and responses of the LLM service. *)
Inductive block :=
| TextBlock (text : string)
| ToolUseBlock (id name : string) (input : dict)
| OtherBlock (type : string).

Record response := mk_response {
  stop_reason : string;
  content : list block;
  usage_input_tokens : Z;
  usage_output_tokens : Z
}.

Inductive message :=
| MsgUser (prompt : string)
| MsgAssistant (content : list block)
| MsgToolResults (results : list (string * string)).   (* tool_use_id, content *)

Fixpoint blocks_text (bs : list block) : string :=
  match bs with
  | [] => EmptyString
  | TextBlock t :: bs' => t +++ blocks_text bs'
  | _ :: bs' => blocks_text bs'
  end.

(** Outcome of [invoke_with_tools]: [(success, final_output, token_usage)],
    paired with the number of [messages.create] calls made. *)
Definition driver_result : Type := (bool * string * (Z * Z)) * nat.

Section ConversationDriver.
(** The LLM service: the [k]-th call of [messages.create] (from 0) on the
    current history returns a response or raises (timeouts, rate limits,
    connection failures). *)
Variable service : nat -> list message -> outcome response.
(** The agent's [handle_tool_call]; it may raise. *)
Variable handle_tool_call : string -> dict -> outcome json.

Definition tool_result_content (r : json) : string :=
  match r with
  | JObj _ => json_dumps r
  | _ => py_str r
  end.

Fixpoint run_tool_calls (bs : list block) : outcome (list (string * string)) :=
  match bs with
  | [] => Ok []
  | ToolUseBlock id name input :: bs' =>
      match handle_tool_call name input with
      | Raise e => Raise e
      | Ok r =>
          match run_tool_calls bs' with
          | Raise e => Raise e
          | Ok rs => Ok ((id, tool_result_content r) :: rs)
          end
      end
  | _ :: bs' => run_tool_calls bs'
  end.

Definition tool_error (e : py_exc) : string :=
  "Error during tool execution: " +++ exc_str e.

(** [for turn in range(max_turns)]: [n] turns remain, [turn] is the index
    of this turn and also the number of service calls made so far. *)
Fixpoint tool_loop (max_turns n turn : nat) (messages : list message) (tokens : Z * Z)
    : driver_result :=
  match n with
  | O => ((false, "Exceeded maximum turns (" +++ pretty max_turns +++ ")", tokens), turn)
  | S n' =>
      match service turn messages with
      | Raise e => ((false, tool_error e, tokens), S turn)
      | Ok resp =>
          let tokens' := (tokens.1 + usage_input_tokens resp,
                          tokens.2 + usage_output_tokens resp)%Z in
          if String.eqb (stop_reason resp) "end_turn" then
            ((true, blocks_text (content resp), tokens'), S turn)
          else if String.eqb (stop_reason resp) "tool_use" then
            let messages1 := (messages ++ [MsgAssistant (content resp)])%list in
            match run_tool_calls (content resp) with
            | Raise e => ((false, tool_error e, tokens'), S turn)
            | Ok results =>
                tool_loop max_turns n' (S turn) (messages1 ++ [MsgToolResults results])%list tokens'
            end
          else ((true, blocks_text (content resp), tokens'), S turn)
      end
  end.

Definition invoke_with_tools (prompt : string) (max_turns : nat) : driver_result :=
  tool_loop max_turns max_turns 0 [MsgUser prompt] (0, 0)%Z.
End ConversationDriver.

(** [OrchestratorAgent.handle_tool_call]: the tool inputs are indexed with
    [tool_input[...]], which raises a KeyError on a missing key; the
    department routing, the approval record and the audit record
    themselves are passed in. *)
Definition key_error (k : string) : py_exc := mk_exc "KeyError" ("'" +++ k +++ "'").

Definition dict_getitem (k : string) (d : dict) : outcome json :=
  match dict_get k d with Some v => Ok v | None => Raise (key_error k) end.

Definition orchestrator_handle_tool_call
    (route_to_department : json -> json -> json -> outcome json)
    (request_human_approval : json -> json -> json -> json -> outcome json)
    (log_audit_event : json -> json -> json -> json -> outcome json)
    (tool_name : string) (tool_input : dict) : outcome json :=
  let get_or k dflt := match dict_get k tool_input with Some v => v | None => dflt end in
  if String.eqb tool_name "route_to_department" then
    match dict_getitem "department" tool_input with
    | Raise e => Raise e
    | Ok d =>
        match dict_getitem "task_context" tool_input with
        | Raise e => Raise e
        | Ok tc => route_to_department d tc (get_or "priority" (JStr "medium"))
        end
    end
  else if String.eqb tool_name "request_human_approval" then
    match dict_getitem "approval_type" tool_input with
    | Raise e => Raise e
    | Ok a =>
        match dict_getitem "summary" tool_input with
        | Raise e => Raise e
        | Ok sm => request_human_approval a sm (get_or "options" (JList []))
                                           (get_or "context" (JObj []))
        end
    end
  else if String.eqb tool_name "log_audit_event" then
    match dict_getitem "event_type" tool_input with
    | Raise e => Raise e
    | Ok et =>
        match dict_getitem "description" tool_input with
        | Raise e => Raise e
        | Ok ds => log_audit_event et ds (get_or "related_collection" JNull)
                                         (get_or "related_item_id" JNull)
        end
    end
  else Ok (JObj [("error", JStr ("Unknown tool: " +++ tool_name))]).

(* ------------------------------------------------------------------ *)
(** * Availability registry and task dispatch (agent_service.py) *)

Definition default_agent_status : gmap string bool :=
  list_to_map [("orchestrator", true); ("email", true); ("lead", true); ("tracker", true);
               ("finance", true); ("marketing", true); ("client_services", true)].

(** [_agent_status.get(agent_type, False)] *)
Definition is_agent_enabled (status : gmap string bool) (agent_type0 : string) : bool :=
  default false (status !! agent_type0).

(** [set_agent_status]: the new map and whether the agent type exists. *)
Definition set_agent_status (status : gmap string bool) (agent_type0 : string) (enabled : bool)
    : bool * gmap string bool :=
  match status !! agent_type0 with
  | None => (false, status)
  | Some _ => (true, <[agent_type0 := enabled]> status)
  end.

(** The process state the dispatcher touches: the availability flags, the
    session registry, the number of calls made to the LLM service and the
    tokens of the sessions created, in order. *)
Record world := mk_world {
  agent_status : gmap string bool;
  sessions : registry;
  llm_calls : nat;
  sessions_created : list string
}.

Record agent_task := mk_task {
  task_agent_type : string;
  task_trigger_event : string;
  task_collection : string;
  task_item_id : string;
  task_context : dict
}.

Record agent_response := mk_agent_response {
  resp_success : bool;
  resp_agent_type : string;
  resp_task_id : string;
  resp_result : option string;
  resp_error : option string;
  resp_logs : list string
}.

(** The department agents initialised by [lifespan]. *)
Inductive dept_agent := EmailAgent | MarketingAgent | ClientServicesAgent | FinanceAgent.

Definition dept_agent_class (a : dept_agent) : string :=
  match a with
  | EmailAgent => "EmailAgent" | MarketingAgent => "MarketingAgent"
  | ClientServicesAgent => "ClientServicesAgent" | FinanceAgent => "FinanceAgent"
  end.

Definition get_agent_for_type (agent_type0 : string) : option dept_agent :=
  if String.eqb agent_type0 "email" then Some EmailAgent
  else if String.eqb agent_type0 "lead" then Some MarketingAgent
  else if String.eqb agent_type0 "tracker" then Some ClientServicesAgent
  else if String.eqb agent_type0 "finance" then Some FinanceAgent
  else if String.eqb agent_type0 "marketing" then Some MarketingAgent
  else if String.eqb agent_type0 "client_services" then Some ClientServicesAgent
  else None.

Definition w_set_sessions (reg : registry) (w : world) : world :=
  {| agent_status := agent_status w; sessions := reg; llm_calls := llm_calls w;
     sessions_created := sessions_created w |}.

Section Dispatch.
(** Whether [lifespan] has initialised the agents (the module globals are
    [None] before). *)
Variable started : bool.
(** [_orchestrator.classify_and_route(event)]: its effect on the world
    (the LLM calls of the classification), and the exception it raised,
    if any (it returns an [AgentResult] otherwise). *)
Variable orchestrator_classify : dict -> world -> world * option py_exc.

Definition failure_response (task : agent_task) (err : string) (logs : list string)
    : agent_response :=
  {| resp_success := false; resp_agent_type := task_agent_type task;
     resp_task_id := task_item_id task; resp_result := None;
     resp_error := Some err; resp_logs := logs |}.

(** [invoke_claude_agent(task)]: [tok] is the [uuid4] token of the
    session, [now] the clock in seconds and [clock] its [%H:%M:%S] text.
    The department agents define no [run] method, so [agent.run(...)]
    raises an AttributeError, as does [.get] on the [AgentResult] that
    [classify_and_route] returns; these, and an exception raised inside
    [classify_and_route], are caught by the [except] clauses, which end
    the session ([asyncio.TimeoutError], the builtin [TimeoutError], has
    its own message). *)
Definition invoke_claude_agent (task : agent_task) (tok : string) (now : Z) (clock : string)
    (w : world) : agent_response * world :=
  if negb (is_agent_enabled (agent_status w) (task_agent_type task)) then
    (failure_response task
       ("Agent '" +++ task_agent_type task +++ "' is currently disabled")
       ["Task rejected: agent disabled at " +++ clock], w)
  else
    let '(sid, reg1) := create_session (sessions w) tok (task_agent_type task)
                          (task_item_id task) (task_collection task) None now in
    let w1 := {| agent_status := agent_status w; sessions := reg1; llm_calls := llm_calls w;
                 sessions_created := sessions_created w ++ [sid] |} in
    let on_exception (e : py_exc) (w' : world) :=
      let '(_, reg2) := end_session (sessions w') sid now in
      let err := if String.eqb (exc_type e) "TimeoutError" then "Agent execution timed out"
                 else exc_str e in
      (failure_response task err [], w_set_sessions reg2 w') in
    match (if started then get_agent_for_type (task_agent_type task) else None) with
    | Some a =>
        on_exception (mk_exc "AttributeError"
                        ("'" +++ dept_agent_class a +++ "' object has no attribute 'run'")) w1
    | None =>
        if started then
          let event := [("event", JStr (task_trigger_event task));
                        ("collection", JStr (task_collection task));
                        ("item_id", JStr (task_item_id task));
                        ("context", JObj (task_context task))] in
          let '(w2, raised) := orchestrator_classify event w1 in
          on_exception (match raised with
                        | Some e => e
                        | None => mk_exc "AttributeError" "'AgentResult' object has no attribute 'get'"
                        end) w2
        else
          let '(_, reg2) := end_session (sessions w1) sid now in
          (failure_response task ("No agent available for type: " +++ task_agent_type task) [],
           w_set_sessions reg2 w1)
    end.
End Dispatch.

(* ------------------------------------------------------------------ *)
(** * [json.loads] (the standard library's decoder, strict mode) *)

Definition is_ws (c : ascii) : bool :=
  let n := nat_of_ascii c in Nat.eqb n 32 || Nat.eqb n 9 || Nat.eqb n 10 || Nat.eqb n 13.

Fixpoint skip_ws (s : string) : string :=
  match s with
  | String c r => if is_ws c then skip_ws r else s
  | EmptyString => EmptyString
  end.

Definition is_digit (c : ascii) : bool :=
  let n := nat_of_ascii c in Nat.leb 48 n && Nat.leb n 57.

Fixpoint take_digits (s : string) : string * string :=
  match s with
  | String c r =>
      if is_digit c then let '(ds, r') := take_digits r in (String c ds, r') else (EmptyString, s)
  | EmptyString => (EmptyString, EmptyString)
  end.

Fixpoint digits_value (acc : Z) (s : string) : Z :=
  match s with
  | String c r => digits_value (10 * acc + Z.of_nat (nat_of_ascii c - 48))%Z r
  | EmptyString => acc
  end.

(** The number pattern: an optional minus, then 0 or a non-zero digit
    followed by digits, then an optional fraction (a dot and at least one
    digit), then an optional exponent (e or E, an optional sign, at least
    one digit).  An integer literal gives an int, any other a float. *)
Definition match_number (s : string) : option (json * string) :=
  let '(sign, s1) := match s with
                     | String c r => if ascii_dec c "-" then ("-", r) else (EmptyString, s)
                     | EmptyString => (EmptyString, s)
                     end in
  let int_part :=
    match s1 with
    | String c r =>
        if ascii_dec c "0" then Some ("0", r)
        else if is_digit c then let '(ds, r') := take_digits r in Some (String c ds, r')
        else None
    | EmptyString => None
    end in
  match int_part with
  | None => None
  | Some (ip, s2) =>
      let '(frac, s3) :=
        match s2 with
        | String c (String d r) =>
            if Ascii.eqb c "." && is_digit d
            then let '(ds, r') := take_digits (String d r) in ("." +++ ds, r')
            else (EmptyString, s2)
        | _ => (EmptyString, s2)
        end in
      let '(ex, s4) :=
        match s3 with
        | String e r =>
            if Ascii.eqb e "e" || Ascii.eqb e "E" then
              let '(sg, r1) := match r with
                               | String c r1 =>
                                   if Ascii.eqb c "+" || Ascii.eqb c "-"
                                   then (String c EmptyString, r1) else (EmptyString, r)
                               | EmptyString => (EmptyString, r)
                               end in
              match r1 with
              | String d _ =>
                  if is_digit d then let '(ds, r2) := take_digits r1 in
                                     (String e (sg +++ ds), r2)
                  else (EmptyString, s3)
              | EmptyString => (EmptyString, s3)
              end
            else (EmptyString, s3)
        | EmptyString => (EmptyString, s3)
        end in
      if String.eqb frac EmptyString && String.eqb ex EmptyString then
        let z := digits_value 0 ip in
        Some (JInt (if String.eqb sign EmptyString then z else (- z)%Z), s4)
      else Some (JFloat (sign +++ ip +++ frac +++ ex), s4)
  end.

Definition hex_value (c : ascii) : option nat :=
  let n := nat_of_ascii c in
  if Nat.leb 48 n && Nat.leb n 57 then Some (n - 48)
  else if Nat.leb 97 n && Nat.leb n 102 then Some (n - 87)
  else if Nat.leb 65 n && Nat.leb n 70 then Some (n - 55)
  else None.

(** A [\uXXXX] escape; code points beyond one byte are shown as ["?"]
    (the string type of the model is byte-wide). *)
Definition decode_u (h1 h2 h3 h4 : ascii) : option ascii :=
  match hex_value h1, hex_value h2, hex_value h3, hex_value h4 with
  | Some a, Some b, Some c, Some d =>
      let v := a * 4096 + b * 256 + c * 16 + d in
      Some (if Nat.ltb v 256 then ascii_of_nat v else "?"%char)
  | _, _, _, _ => None
  end.

(** The body of a string literal after its opening quote: the decoded text
    and the input after the closing quote; control characters are
    rejected. *)
Fixpoint parse_str_body (s : string) : option (string * string) :=
  match s with
  | EmptyString => None
  | String c r =>
      if ascii_dec c dq then Some (EmptyString, r)
      else if ascii_dec c "\" then
        match r with
        | String e r' =>
            let simple :=
              if ascii_dec e dq then Some dq
              else if ascii_dec e "\" then Some "\"%char
              else if ascii_dec e "/" then Some "/"%char
              else if ascii_dec e "b" then Some (ascii_of_nat 8)
              else if ascii_dec e "f" then Some (ascii_of_nat 12)
              else if ascii_dec e "n" then Some (ascii_of_nat 10)
              else if ascii_dec e "r" then Some (ascii_of_nat 13)
              else if ascii_dec e "t" then Some (ascii_of_nat 9)
              else None in
            match simple with
            | Some ch =>
                match parse_str_body r' with
                | Some (t, rest) => Some (String ch t, rest)
                | None => None
                end
            | None =>
                if ascii_dec e "u" then
                  match r' with
                  | String h1 (String h2 (String h3 (String h4 r''))) =>
                      match decode_u h1 h2 h3 h4, parse_str_body r'' with
                      | Some ch, Some (t, rest) => Some (String ch t, rest)
                      | _, _ => None
                      end
                  | _ => None
                  end
                else None
            end
        | EmptyString => None
        end
      else if Nat.ltb (nat_of_ascii c) 32 then None
      else
        match parse_str_body r with
        | Some (t, rest) => Some (String c t, rest)
        | None => None
        end
  end.

(** Inserting into a dict: a repeated key keeps its place and takes the
    new value. *)
Fixpoint obj_set (k : string) (v : json) (d : dict) : dict :=
  match d with
  | [] => [(k, v)]
  | (k', v') :: d' => if String.eqb k k' then (k, v) :: d' else (k', v') :: obj_set k v d'
  end.

Definition starts_with (p s : string) : bool := String.prefix p s.

(** The decoder's scanner.  Each call consumes at least one character
    before recursing, so [S (length s)] is enough fuel. *)
Fixpoint parse_value (fuel : nat) (s : string) {struct fuel} : option (json * string) :=
  match fuel with
  | O => None
  | S f =>
      match s with
      | EmptyString => None
      | String c r =>
          if ascii_dec c dq then
            match parse_str_body r with Some (t, r') => Some (JStr t, r') | None => None end
          else if ascii_dec c "{" then
            match skip_ws r with
            | String c1 r1 =>
                if ascii_dec c1 "}" then Some (JObj [], r1)
                else if ascii_dec c1 dq then
                  match parse_members f [] (skip_ws r) with
                  | Some (d, r') => Some (JObj d, r')
                  | None => None
                  end
                else None
            | EmptyString => None
            end
          else if ascii_dec c "[" then
            match skip_ws r with
            | String c1 r1 =>
                if ascii_dec c1 "]" then Some (JList [], r1)
                else match parse_elems f [] (skip_ws r) with
                     | Some (l, r') => Some (JList l, r')
                     | None => None
                     end
            | EmptyString => None
            end
          else if starts_with "null" s then Some (JNull, substring 4 (String.length s) s)
          else if starts_with "true" s then Some (JBool true, substring 4 (String.length s) s)
          else if starts_with "false" s then Some (JBool false, substring 5 (String.length s) s)
          else if starts_with "NaN" s then Some (JFloat "NaN", substring 3 (String.length s) s)
          else if starts_with "Infinity" s then Some (JFloat "inf", substring 8 (String.length s) s)
          else if starts_with "-Infinity" s then Some (JFloat "-inf", substring 9 (String.length s) s)
          else match_number s
      end
  end
(** [s] is at the opening quote of a key. *)
with parse_members (fuel : nat) (acc : dict) (s : string) {struct fuel} : option (dict * string) :=
  match fuel with
  | O => None
  | S f =>
      match s with
      | String c r =>
          if ascii_dec c dq then
            match parse_str_body r with
            | None => None
            | Some (k, r1) =>
                match skip_ws r1 with
                | String c2 r2 =>
                    if ascii_dec c2 ":" then
                      match parse_value f (skip_ws r2) with
                      | None => None
                      | Some (v, r3) =>
                          let acc' := obj_set k v acc in
                          match skip_ws r3 with
                          | String c4 r4 =>
                              if ascii_dec c4 "}" then Some (acc', r4)
                              else if ascii_dec c4 "," then parse_members f acc' (skip_ws r4)
                              else None
                          | EmptyString => None
                          end
                      end
                    else None
                | EmptyString => None
                end
            end
          else None
      | EmptyString => None
      end
  end
(** [s] is at the start of an element. *)
with parse_elems (fuel : nat) (acc : list json) (s : string) {struct fuel}
    : option (list json * string) :=
  match fuel with
  | O => None
  | S f =>
      match parse_value f s with
      | None => None
      | Some (v, r) =>
          let acc' := (acc ++ [v])%list in
          match skip_ws r with
          | String c r' =>
              if ascii_dec c "]" then Some (acc', r')
              else if ascii_dec c "," then parse_elems f acc' (skip_ws r')
              else None
          | EmptyString => None
          end
      end
  end.

(** [json.loads(s)]; the decoder's position-specific messages are reduced
    to their first words. *)
Definition json_decode_error (msg : string) : py_exc := mk_exc "JSONDecodeError" msg.

Definition json_loads (s : string) : outcome json :=
  match parse_value (S (String.length s)) (skip_ws s) with
  | Some (v, r) =>
      match skip_ws r with
      | EmptyString => Ok v
      | _ => Raise (json_decode_error "Extra data")
      end
  | None => Raise (json_decode_error "Expecting value")
  end.

(* ------------------------------------------------------------------ *)
(** * Classification router (orchestrator_agent.py,
      [OrchestratorAgent.classify_and_route]) *)

Definition str_contains (sub s : string) : bool :=
  match String.index 0 sub s with Some _ => true | None => false end.

(** [s.split(sep)] for a non-empty separator. *)
Fixpoint py_split_go (fuel : nat) (s sep : string) : list string :=
  match fuel with
  | O => [s]
  | S f =>
      match String.index 0 sep s with
      | Some i => substring 0 i s
                  :: py_split_go f (substring (i + String.length sep) (String.length s) s) sep
      | None => [s]
      end
  end.

Definition py_split (s sep : string) : list string := py_split_go (S (String.length s)) s sep.

(** [s.rindex(c)] for a one-character [c]. *)
Fixpoint rindex_char (c : ascii) (s : string) : option nat :=
  match s with
  | EmptyString => None
  | String c' r =>
      match rindex_char c r with
      | Some i => Some (S i)
      | None => if ascii_dec c c' then Some 0 else None
      end
  end.

(** [s[start:stop]] with [0 <= start] and [stop <= len(s)]. *)
Definition py_slice (s : string) (start stop : nat) : string :=
  substring start (stop - start) s.

(** The JSON text the router cuts out of the model's output. *)
Definition extract_json_str (output : string) : outcome string :=
  if str_contains "```json" output then
    Ok (nth 0 (py_split (nth 1 (py_split output "```json") EmptyString) "```") EmptyString)
  else if str_contains "{" output then
    match String.index 0 "{" output, rindex_char "}" output with
    | Some start, Some stop => Ok (py_slice output start (stop + 1))
    | _, _ => Raise (mk_exc "ValueError" "substring not found")
    end
  else Ok output.

Definition department_values : list string :=
  ["finance"; "marketing"; "client_services"; "production"; "sales"; "operations"; "unknown"].

(** [Department(value)] *)
Definition department_of (v : json) : outcome string :=
  match v with
  | JStr s => if bool_decide (s ∈ department_values) then Ok s
              else Raise (mk_exc "ValueError" (py_repr v +++ " is not a valid Department"))
  | _ => Raise (mk_exc "ValueError" (py_repr v +++ " is not a valid Department"))
  end.

(** [result_data] of a successful execution, with the keys the router
    adds. *)
Record route_data := mk_route_data {
  rd_output : string;
  rd_classification : option json;
  rd_routing : option json;
  rd_parse_error : option py_exc
}.

(** [AgentResult] as the router returns it ([result_data] is [None] after
    an execution failure). *)
Record route_result := mk_route_result {
  rr_success : bool;
  rr_data : option route_data;
  rr_error : option string
}.

Section Router.
(** The departments registered with [register_agent]. *)
Variable department_agents : list string.
(** [self._route_to_department(department, event, priority)]; it catches
    its own failures and returns a dict. *)
Variable route_to_department : json -> dict -> json -> json.

Definition set_parse_error (d : route_data) (e : py_exc) : route_data :=
  {| rd_output := rd_output d; rd_classification := rd_classification d;
     rd_routing := rd_routing d; rd_parse_error := Some e |}.

(** [classify_and_route(event)] after [self.execute(task_id, event)]
    returned [(success, output)]: [Raise] is an exception escaping the
    router. *)
Definition classify_and_route (event : dict) (exec : bool * string) : outcome route_result :=
  let '(success, output) := exec in
  if negb success then Ok {| rr_success := false; rr_data := None; rr_error := Some output |}
  else
    let base := {| rd_output := output; rd_classification := None; rd_routing := None;
                   rd_parse_error := None |} in
    let ok d := Ok {| rr_success := true; rr_data := Some d; rr_error := None |} in
    match extract_json_str output with
    | Raise e => ok (set_parse_error base e)
    | Ok json_str =>
        match json_loads json_str with
        | Raise e => ok (set_parse_error base e)
        | Ok classification =>
            let d1 := {| rd_output := output; rd_classification := Some classification;
                         rd_routing := None; rd_parse_error := None |} in
            match classification with
            | JObj c =>
                let get k dflt := match dict_get k c with Some v => v | None => dflt end in
                match department_of (get "department" (JStr "unknown")) with
                | Raise e => ok (set_parse_error d1 e)
                | Ok dept =>
                    if bool_decide (dept ∈ department_agents) &&
                       negb (py_truthy (get "requires_human_approval" JNull)) then
                      match dict_getitem "department" c with
                      | Raise e => Raise e
                      | Ok dv =>
                          ok {| rd_output := output; rd_classification := Some classification;
                                rd_routing := Some (route_to_department dv event
                                                      (get "priority" (JStr "medium")));
                                rd_parse_error := None |}
                      end
                    else ok d1
                end
            | _ => Raise (mk_exc "AttributeError"
                            ("'" +++ py_type_name classification +++ "' object has no attribute 'get'"))
            end
        end
    end.
End Router.

(* ------------------------------------------------------------------ *)
(** * Agent control endpoints (agent_service.py) *)

(** [HTTPException(status_code, detail)]; [str()] of it is
    ["<code>: <detail>"]. *)
Definition http_exc (code : Z) (detail : string) : py_exc :=
  mk_exc "HTTPException" (pretty code +++ ": " +++ detail).

Definition control_response (status agent_type0 timestamp : string) : json :=
  JObj [("status", JStr status); ("agent_type", JStr agent_type0); ("timestamp", JStr timestamp)].

(** [POST /agents/{agent_type}/enable] and [/disable]; [timestamp] is the
    ISO text of [datetime.now(timezone.utc)].  The background save to
    Directus is not part of the flag state. *)
Definition enable_agent (st : gmap string bool) (agent_type0 timestamp : string)
    : outcome json * gmap string bool :=
  match st !! agent_type0 with
  | None => (Raise (http_exc 404 ("Unknown agent type: " +++ agent_type0)), st)
  | Some _ => (Ok (control_response "enabled" agent_type0 timestamp),
               (set_agent_status st agent_type0 true).2)
  end.

Definition disable_agent (st : gmap string bool) (agent_type0 timestamp : string)
    : outcome json * gmap string bool :=
  match st !! agent_type0 with
  | None => (Raise (http_exc 404 ("Unknown agent type: " +++ agent_type0)), st)
  | Some _ => (Ok (control_response "disabled" agent_type0 timestamp),
               (set_agent_status st agent_type0 false).2)
  end.

(** [POST /agents/{agent_type}/toggle] *)
Definition toggle_agent (st : gmap string bool) (agent_type0 timestamp : string)
    : outcome json * gmap string bool :=
  match st !! agent_type0 with
  | None => (Raise (http_exc 404 ("Unknown agent type: " +++ agent_type0)), st)
  | Some b =>
      let new_status := negb b in
      (Ok (control_response (if new_status then "enabled" else "disabled") agent_type0 timestamp),
       (set_agent_status st agent_type0 new_status).2)
  end.

(** [POST /agents/disable-all] and [/enable-all]: every key of
    [_agent_status] is overwritten. *)
Definition disable_all_agents (st : gmap string bool) : gmap string bool :=
  (fun _ => false) <$> st.

Definition enable_all_agents (st : gmap string bool) : gmap string bool :=
  (fun _ => true) <$> st.

(** The loop of [load_agent_status_from_directus] over
    [saved_status.items()]: only agent types already present are
    updated, to [bool(enabled)]. *)
Definition load_status_items (st : gmap string bool) (saved : dict) : gmap string bool :=
  fold_left (fun acc kv =>
               match acc !! fst kv with
               | Some _ => <[fst kv := py_truthy (snd kv)]> acc
               | None => acc
               end) saved st.

(** [load_agent_status_from_directus()] given what [directus_request]
    returned or raised: the boolean it returns and the new flags.  Every
    exception in the body ([.get] on a non-dict, [len] of a number,
    [settings[0]] on a dict) is caught and yields [False]. *)
Definition load_agent_status_from_directus (st : gmap string bool) (result : outcome json)
    : bool * gmap string bool :=
  match result with
  | Raise _ => (false, st)
  | Ok (JObj r) =>
      let settings := match dict_get "data" r with Some v => v | None => JList [] end in
      match settings with
      | JList (JObj item :: _) =>
          match (match dict_get "value" item with Some v => v | None => JObj [] end) with
          | JObj saved => (true, load_status_items st saved)
          | _ => (false, st)
          end
      | _ => (false, st)
      end
  | Ok _ => (false, st)
  end.

(** The operations that touch [_agent_status]. *)
Inductive control_op :=
| CtlSet (agent_type0 : string) (enabled : bool)
| CtlEnable (agent_type0 : string)
| CtlDisable (agent_type0 : string)
| CtlToggle (agent_type0 : string)
| CtlDisableAll
| CtlEnableAll
| CtlLoad (result : outcome json).

Definition control_step (st : gmap string bool) (o : control_op) : gmap string bool :=
  match o with
  | CtlSet t e => (set_agent_status st t e).2
  | CtlEnable t => (enable_agent st t EmptyString).2
  | CtlDisable t => (disable_agent st t EmptyString).2
  | CtlToggle t => (toggle_agent st t EmptyString).2
  | CtlDisableAll => disable_all_agents st
  | CtlEnableAll => enable_all_agents st
  | CtlLoad r => (load_agent_status_from_directus st r).2
  end.

Definition control_run (st : gmap string bool) (ops : list control_op) : gmap string bool :=
  fold_left control_step ops st.

(* ------------------------------------------------------------------ *)
(** * Prompts (agent_service.py, "Prompt cache") *)

(** [FALLBACK_PROMPTS] *)
Definition fallback_prompts : dict :=
  [("email", JStr "You are the Shinobi Email Agent. Your job is to:
1. Analyze the inbound email context provided
2. Draft an appropriate professional response
3. Store the draft in the service_workflows collection with status 'pending_approval'
4. NEVER send emails directly - always create drafts for human approval

Use the Directus MCP tools to read context and write drafts.
Use Gmail MCP tools ONLY to read emails, never to send.
");
   ("lead", JStr "You are the Shinobi Lead Agent. Your job is to:
1. Analyze new leads and qualify them
2. Score leads based on company size, urgency, and fit
3. Update the lead record with score and notes
4. If high-priority, create a task for immediate follow-up

Use the Directus MCP tools to read/write lead data.
");
   ("tracker", JStr "You are the Shinobi Tracker Agent. Your job is to:
1. Scan project_trackers for overdue items
2. Flag any issues and update status
3. Create alerts for items needing attention

Use the Directus MCP tools to read/update tracker data.
")].

(** [v[k]] for a string [k]. *)
Definition py_getitem (v : json) (k : string) : outcome json :=
  match v with
  | JObj d => dict_getitem k d
  | JStr _ => Raise (mk_exc "TypeError" "string indices must be integers, not 'str'")
  | JList _ => Raise (mk_exc "TypeError" "list indices must be integers or slices, not str")
  | _ => Raise (mk_exc "TypeError" ("'" +++ py_type_name v +++ "' object is not subscriptable"))
  end.

(** [get_agent_prompt(agent_type, prompts_dict)].  Only the string keys
    of [prompts_dict] are kept: a key of another type never equals the
    string looked up. *)
Definition get_agent_prompt (agent_type0 : string) (prompts_dict : dict) : outcome json :=
  let prompt_key := agent_type0 +++ "_agent_system" in
  match dict_get prompt_key prompts_dict with
  | Some v => py_getitem v "content"
  | None =>
      match dict_get agent_type0 prompts_dict with
      | Some v => py_getitem v "content"
      | None => Ok (match dict_get agent_type0 fallback_prompts with
                    | Some p => p
                    | None => JStr EmptyString
                    end)
      end
  end.

Definition task_with_type (t : agent_task) (agent_type0 : string) : agent_task :=
  {| task_agent_type := agent_type0; task_trigger_event := task_trigger_event t;
     task_collection := task_collection t; task_item_id := task_item_id t;
     task_context := task_context t |}.

(** [POST /trigger/{agent_type}] given the prompts fetched from Directus:
    the response and the task queued for [run_agent_task]. *)
Definition manual_trigger (agent_type0 : string) (task : agent_task) (prompts_dict : dict)
    : outcome (json * agent_task) :=
  match get_agent_prompt agent_type0 prompts_dict with
  | Raise e => Raise e
  | Ok prompt =>
      if negb (py_truthy prompt) then
        Raise (http_exc 400 ("No prompt found for agent type: " +++ agent_type0))
      else
        let task' := task_with_type task agent_type0 in
        Ok (JObj [("status", JStr "accepted"); ("agent_type", JStr agent_type0);
                  ("item_id", JStr (task_item_id task'));
                  ("message", JStr ("Manual trigger queued for " +++ agent_type0 +++ " agent"))],
            task')
  end.

(** [\w] of a [str] pattern on the code points below 256: letters, digits
    and numeric characters of Latin-1, and the underscore. *)
Definition is_word_char (c : ascii) : bool :=
  let n := nat_of_ascii c in
  (((48 <=? n) && (n <=? 57)) || ((65 <=? n) && (n <=? 90)) || (n =? 95) ||
  ((97 <=? n) && (n <=? 122)) || (n =? 170) || (n =? 178) || (n =? 179) || (n =? 181) ||
  (n =? 185) || (n =? 186) || ((188 <=? n) && (n <=? 190)) ||
  ((192 <=? n) && (n <=? 214)) || ((216 <=? n) && (n <=? 246)) || (248 <=? n))%nat.

(** The longest prefix of word characters ([\w*], greedy). *)
Fixpoint take_word (s : string) : string * string :=
  match s with
  | String c s' =>
      if is_word_char c then let '(w, r) := take_word s' in (String c w, r) else (EmptyString, s)
  | EmptyString => (EmptyString, EmptyString)
  end.

(** [(?:\.\w+)*], greedy; a [.] not followed by a word character ends it.
    The recursion is on the length of the text, which each group
    shortens. *)
Fixpoint dot_groups (fuel : nat) (s : string) : string * string :=
  match fuel with
  | O => (EmptyString, s)
  | S f =>
      match s with
      | String c s' =>
          if Ascii.eqb c "." then
            let '(w, r) := take_word s' in
            if String.eqb w EmptyString then (EmptyString, s)
            else let '(g, r') := dot_groups f r in ("." +++ w +++ g, r')
          else (EmptyString, s)
      | EmptyString => (EmptyString, s)
      end
  end.

(** A match of [\{\{(\w+(?:\.\w+)* )\}\}] at the start of [s]: group 1 and
    the text after the match.  Backtracking never helps: a shorter [\w+]
    or fewer groups leave a word character or a [.] where [}] is needed. *)
Definition match_placeholder (s : string) : option (string * string) :=
  match s with
  | String "{" (String "{" s1) =>
      let '(w, s2) := take_word s1 in
      if String.eqb w EmptyString then None
      else
        let '(g, s3) := dot_groups (String.length s2) s2 in
        match s3 with
        | String "}" (String "}" rest) => Some (w +++ g, rest)
        | _ => None
        end
  | _ => None
  end.

(** [replace_var(match)] *)
Fixpoint resolve_path (missing : string) (value : json) (keys : list string) : string :=
  match keys with
  | [] => py_str value
  | k :: ks =>
      match value with
      | JObj d => resolve_path missing (match dict_get k d with Some v => v | None => JStr missing end) ks
      | _ => missing
      end
  end.

Definition replace_var (context : dict) (var_name : string) : string :=
  resolve_path ("{{MISSING:" +++ var_name +++ "}}") (JObj context) (py_split var_name ".").

(** [re.sub] scans left to right, replacing each match and copying one
    character where none starts. *)
Fixpoint substitute_go (fuel : nat) (context : dict) (s : string) : string :=
  match fuel with
  | O => s
  | S f =>
      match s with
      | EmptyString => EmptyString
      | String c s' =>
          match match_placeholder s with
          | Some (var_name, rest) => replace_var context var_name +++ substitute_go f context rest
          | None => String c (substitute_go f context s')
          end
      end
  end.

Definition substitute_variables (prompt : string) (context : dict) : string :=
  substitute_go (S (String.length prompt)) context prompt.

(* ------------------------------------------------------------------ *)
(** * Webhooks, approvals and the hook endpoint (agent_service.py) *)

(** The side effects the handlers perform or queue, in order:
    [log_agent_activity(...)] records (which swallow their own failures)
    and background tasks. *)
Inductive effect :=
| EffLog (agent_type0 trigger_event collection : string) (item_id : json) (status : string)
    (result error : json)
| EffQueueTask (t : agent_task)
| EffQueueSend (prompt_id : string) (context : dict)
| EffQueueViolationLog (session_id tool_name : string) (tool_input : dict) (reason : string).

Record webhook_payload := mk_webhook_payload {
  wp_event : string;
  wp_collection : string;
  wp_key : option string;
  wp_keys : option (list json);
  wp_payload : option dict
}.

(** The agent type [process_webhook] picks for a collection. *)
Definition webhook_agent_type (collection : string) : option string :=
  if String.eqb collection "emails" then Some "email"
  else if String.eqb collection "leads" then Some "lead"
  else if bool_decide (collection ∈ ["project_trackers"; "tasks"; "milestones"]) then Some "tracker"
  else None.

(** [payload.key or (payload.keys[0] if payload.keys else None)] *)
Definition webhook_item_id (p : webhook_payload) : json :=
  let from_keys := match wp_keys p with Some (k :: _) => k | _ => JNull end in
  match wp_key p with
  | Some k => if String.eqb k EmptyString then from_keys else JStr k
  | None => from_keys
  end.

(** [process_webhook(payload, background_tasks)]: the response and the
    effects. *)
Definition process_webhook (p : webhook_payload) : json * list effect :=
  match webhook_agent_type (wp_collection p) with
  | None => (JObj [("status", JStr "ignored");
                   ("reason", JStr ("No agent for collection: " +++ wp_collection p))], [])
  | Some agent_type0 =>
      let item_id := webhook_item_id p in
      if negb (py_truthy item_id) then
        (JObj [("status", JStr "error"); ("reason", JStr "No item ID in webhook payload")], [])
      else
        let task := {| task_agent_type := agent_type0; task_trigger_event := wp_event p;
                       task_collection := wp_collection p; task_item_id := py_str item_id;
                       task_context := match wp_payload p with Some d => d | None => [] end |} in
        (JObj [("status", JStr "accepted"); ("agent_type", JStr agent_type0);
               ("item_id", item_id);
               ("message", JStr ("Task queued for " +++ agent_type0 +++ " agent"))],
         [EffLog agent_type0 (wp_event p) (wp_collection p) (JStr (py_str item_id)) "received"
            JNull JNull;
          EffQueueTask task])
  end.

(** [str.lower()] on the code points below 256. *)
Definition lower_char (c : ascii) : ascii :=
  let n := nat_of_ascii c in
  if (((65 <=? n) && (n <=? 90)) || ((192 <=? n) && (n <=? 222) && negb (n =? 215)))%nat
  then ascii_of_nat (n + 32)%nat else c.

Fixpoint py_lower (s : string) : string :=
  match s with
  | EmptyString => EmptyString
  | String c s' => String (lower_char c) (py_lower s')
  end.

Record approval_payload := mk_approval_payload {
  ap_prompt_id : string;
  ap_response : string;
  ap_context : option dict
}.

(** [handle_approval(payload, background_tasks)] *)
Definition handle_approval (p : approval_payload) : json * list effect :=
  let context := match ap_context p with Some d => d | None => [] end in
  let approval_type := match dict_get "type" context with Some v => v | None => JStr "unknown" end in
  let response := py_lower (ap_response p) in
  if (match approval_type with JStr s => String.eqb s "email_draft" | _ => false end) then
    if String.eqb response "approve" then
      (JObj [("status", JStr "processing"); ("action", JStr "sending_email")],
       [EffQueueSend (ap_prompt_id p) context])
    else if String.eqb response "reject" then
      (JObj [("status", JStr "rejected"); ("action", JStr "none")],
       [EffLog "email" "approval_rejected" "human_prompts" (JStr (ap_prompt_id p)) "completed"
          (JStr "Email draft rejected by user") JNull])
    else (JObj [("status", JStr "edit_requested"); ("action", JStr "await_edit")], [])
  else (JObj [("status", JStr "processed"); ("approval_type", approval_type)], []).

(** [send_approved_email(prompt_id, context)].  The import of
    [gmail_send_email] is commented out at the top of the module, so once
    the four required fields are present the call [gmail_send_email(...)]
    raises a NameError; either exception is caught by the final
    [except Exception] and logged. *)
Definition gmail_name_error : py_exc :=
  mk_exc "NameError" "name 'gmail_send_email' is not defined".

Definition send_approved_email (prompt_id : string) (context : dict) : list effect :=
  let g k := match dict_get k context with Some v => v | None => JNull end in
  let email_id := g "email_id" in
  let draft_subject := g "draft_subject" in
  let draft_body := g "draft_body" in
  let original_from := g "original_from" in
  let error_log (msg : string) :=
    EffLog "email" "email_send_error" "human_prompts" (JStr prompt_id) "failed" JNull (JStr msg) in
  if negb (forallb py_truthy [email_id; draft_subject; draft_body; original_from]) then
    [error_log "Missing required email context"]
  else [error_log (exc_str gmail_name_error)].

(** [POST /hook/validate]: the decision of [validate_access], and the
    violation log queued when the call is denied. *)
Definition validate_hook (reg : registry) (session_id tool_name : string) (tool_input : dict)
    : outcome (bool * string) * registry * list effect :=
  let '(r, reg') := validate_access reg session_id tool_name tool_input in
  match r with
  | Ok (allowed, reason) =>
      (Ok (allowed, reason), reg',
       if allowed then [] else [EffQueueViolationLog session_id tool_name tool_input reason])
  | Raise e => (Raise e, reg', [])
  end.

(** [POST /sessions/{session_id}/end] *)
Definition force_end_session (reg : registry) (session_id : string) (now : Z)
    : outcome end_result * registry :=
  match reg !! session_id with
  | None => (Raise (http_exc 404 "Session not found"), reg)
  | Some _ => let '(summary, reg') := end_session reg session_id now in (Ok summary, reg')
  end.

(** [run_agent_task(task)]: the two activity records around
    [invoke_claude_agent], which returns a response on every path. *)
Definition run_agent_task (started : bool)
    (orchestrator_classify : dict -> world -> world * option py_exc)
    (task : agent_task) (tok : string) (now : Z) (clock : string) (w : world)
    : list effect * world :=
  let log status result error :=
    EffLog (task_agent_type task) (task_trigger_event task) (task_collection task)
      (JStr (task_item_id task)) status result error in
  let '(response, w') := invoke_claude_agent started orchestrator_classify task tok now clock w in
  let opt o := match o with Some s => JStr s | None => JNull end in
  ([log "processing" JNull JNull;
    log (if resp_success response then "completed" else "failed")
      (opt (resp_result response)) (opt (resp_error response))], w').

(* ------------------------------------------------------------------ *)
(** * Base agent and orchestrator methods (base_agent.py,
      orchestrator_agent.py) *)

(** [AgentResult]; [result_data] is an optional dict. *)
Record agent_result := mk_agent_result {
  ar_success : bool;
  ar_agent_name : string;
  ar_task_id : string;
  ar_action_taken : string;
  ar_result_data : option dict;
  ar_error : option string;
  ar_requires_approval : bool;
  ar_approval_item_id : option string;
  ar_tokens_used : option json
}.

(** [BaseAgent.handle_tool_call]: the default handler answers every tool
    with an error dict. *)
Definition base_handle_tool_call (agent_name tool_name : string) (tool_input : dict)
    : outcome json :=
  Ok (JObj [("error", JStr ("Tool " +++ tool_name +++ " not implemented in " +++ agent_name))]).

Section BaseExecute.
(** [self.invoke_with_tools(prompt)] and [self.invoke_claude(prompt)]:
    both return [(success, output, tokens)] and catch their own
    failures. *)
Variable invoke_with_tools_fn : string -> bool * string * json.
Variable invoke_claude_fn : string -> bool * string * json.

(** [BaseAgent.execute(task_id, context)]; [enable_tools] and [tools] are
    [self.config.enable_tools] and [self.get_tools()]. *)
Definition base_execute (agent_name : string) (enable_tools : bool) (tools : list json)
    (build_task_prompt : dict -> string) (task_id : string) (context : dict) : agent_result :=
  let prompt := build_task_prompt context in
  let '(success, output, tokens) :=
    if enable_tools && negb (Nat.eqb (length tools) 0) then invoke_with_tools_fn prompt
    else invoke_claude_fn prompt in
  {| ar_success := success; ar_agent_name := agent_name; ar_task_id := task_id;
     ar_action_taken := "claude_api_invocation";
     ar_result_data := if success then Some [("output", JStr output)] else None;
     ar_error := if success then None else Some output;
     ar_requires_approval := false; ar_approval_item_id := None;
     ar_tokens_used := Some tokens |}.
End BaseExecute.

Definition opt_str_json (o : option string) : json :=
  match o with Some s => JStr s | None => JNull end.

Definition opt_dict_json (o : option dict) : json :=
  match o with Some d => JObj d | None => JNull end.

Section Orchestrator.
(** The department values registered with [register_agent], in
    registration order, and the name of each registered agent. *)
Variable registered : list string.
Variable dept_agent_name : string -> string.
(** [agent.execute(task_id, context)] of the agent registered for a
    department; it may raise. *)
Variable dept_execute : string -> string -> json -> outcome agent_result.

(** [_route_to_department(department, context, priority)]; [stamp] is the
    [%Y%m%d_%H%M%S] text of the call. *)
Definition route_to_department (stamp : string) (department context priority : json)
    : outcome json :=
  match department_of department with
  | Raise e => Raise e
  | Ok dept =>
      if negb (bool_decide (dept ∈ registered)) then
        Ok (JObj [("success", JBool false);
                  ("error", JStr ("No agent registered for " +++ py_str department));
                  ("available_departments", JList (map JStr registered))])
      else
        let name := dept_agent_name dept in
        let task_id := py_str department +++ "_" +++ stamp in
        match dept_execute dept task_id context with
        | Ok r =>
            Ok (JObj [("success", JBool (ar_success r)); ("agent", JStr name);
                      ("task_id", JStr task_id); ("result", opt_dict_json (ar_result_data r));
                      ("requires_approval", JBool (ar_requires_approval r));
                      ("approval_id", opt_str_json (ar_approval_item_id r))])
        | Raise e =>
            Ok (JObj [("success", JBool false); ("error", JStr (exc_str e));
                      ("agent", JStr name); ("task_id", JStr task_id)])
        end
  end.

(** [_request_human_approval] and [_log_audit_event]: both only build
    their answer; [now] is the [isoformat()] text. *)
Definition request_human_approval (stamp : string) (approval_type summary options context : json)
    : outcome json :=
  Ok (JObj [("success", JBool true); ("approval_id", JStr ("approval_" +++ stamp));
            ("type", approval_type); ("status", JStr "pending");
            ("message", JStr "Human approval request created")]).

Definition log_audit_event (now : string) (event_type description related_collection
    related_item_id : json) : outcome json :=
  Ok (JObj [("success", JBool true); ("logged", JBool true); ("event_type", event_type);
            ("timestamp", JStr now)]).

(** The orchestrator's [handle_tool_call] with its own methods. *)
Definition orchestrator_tool_handler (stamp now : string) : string -> dict -> outcome json :=
  orchestrator_handle_tool_call (route_to_department stamp) (request_human_approval stamp)
    (log_audit_event now).
End Orchestrator.

Section Workflow.
(** [self.classify_and_route(event)]; it may raise. *)
Variable classify_and_route_fn : dict -> outcome agent_result.

(** [{**a, **b}] *)
Definition dict_merge (a b : dict) : dict :=
  fold_left (fun acc kv => obj_set (fst kv) (snd kv) acc) b a.

(** Whether the loop of [execute_workflow] goes on after [step] gave [r]. *)
Definition workflow_continues (step : dict) (r : agent_result) : bool :=
  let stop := match dict_get "stop_on_failure" step with Some v => v | None => JBool true end in
  negb (negb (ar_success r) && py_truthy stop) && negb (ar_requires_approval r).

(** The loop of [execute_workflow] from step [i] (0-based) on, with the
    context and the results so far. *)
Fixpoint workflow_go (total i : nat) (steps : list dict) (context : dict)
    (results : list agent_result) : outcome (list agent_result) :=
  match steps with
  | [] => Ok results
  | step :: rest =>
      let get k dflt := match dict_get k step with Some v => v | None => dflt end in
      match get "context" (JObj []) with
      | JObj sc =>
          let step_context :=
            obj_set "previous_results"
              (JList (map (fun r => opt_dict_json (ar_result_data r))
                          (List.filter ar_success results)))
              (dict_merge context sc) in
          let event := [("event_type", get "type" (JStr "workflow_step"));
                        ("source", JStr "orchestrator_workflow");
                        ("payload", JObj step_context);
                        ("workflow_step", JInt (Z.of_nat (S i)));
                        ("workflow_total", JInt (Z.of_nat total))] in
          match classify_and_route_fn event with
          | Raise e => Raise e
          | Ok r =>
              let results' := (results ++ [r])%list in
              if workflow_continues step r then
                let context' :=
                  match ar_result_data r with
                  | Some (_ :: _ as d) => obj_set ("step_" +++ pretty (S i)) (JObj d) context
                  | _ => context
                  end in
                workflow_go total (S i) rest context' results'
              else Ok results'
          end
      | v => Raise (mk_exc "TypeError" ("'" +++ py_type_name v +++ "' object is not a mapping"))
      end
  end.

(** [execute_workflow(workflow_steps)] *)
Definition execute_workflow (workflow_steps : list dict) : outcome (list agent_result) :=
  workflow_go (length workflow_steps) 0 workflow_steps [] [].
End Workflow.

(* ------------------------------------------------------------------ *)
(** * Fixtures for the claims *)

(** The registry right after [create_session("finance", "INV-1",
    "invoices")] issued the token ["sid-1"], and the session it holds. *)
Definition demo_registry : registry :=
  (create_session ∅ "sid-1" "finance" "INV-1" "invoices" None 0).2.

Definition demo_session : session :=
  {| allowed_uuids := {["INV-1"]}; allowed_collections := {["invoices"]};
     created_at := 0; agent_type := "finance"; primary_uuid := "INV-1";
     violation_count := 0 |}.

(** A read of the always-readable [agent_logs] collection that names a
    record outside the session. *)
Definition agent_logs_read : dict :=
  [("collection", JStr "agent_logs"); ("action", JStr "read"); ("key", JStr "INV-2")].

(** [collection in read_always_allowed] raises only for an unhashable
    (list or dict) collection value. *)
Definition collection_hashable (tool_input : dict) : bool :=
  match dict_get "collection" tool_input with
  | Some (JList _) | Some (JObj _) => false
  | _ => true
  end.

(** Whether the id extraction of [validate_access] finishes without
    raising (it raises only for a truthy [keys] value that is not
    iterable). *)
Definition extraction_ok (tool_input : dict) : bool :=
  match requested_uuids tool_input with Ok _ => true | Raise _ => false end.

(** The states [(turn, messages, total_tokens)] the tool loop passes
    through: from one state to the next when the response requests tools
    and every tool call is answered. *)
Inductive loop_reaches (service : nat -> list message -> outcome response)
    (handle_tool_call : string -> dict -> outcome json)
    : nat * list message * (Z * Z) -> nat * list message * (Z * Z) -> Prop :=
| loop_reaches_refl st : loop_reaches service handle_tool_call st st
| loop_reaches_step turn messages tokens r rs st' :
    service turn messages = Ok r ->
    stop_reason r = "tool_use" ->
    run_tool_calls handle_tool_call (content r) = Ok rs ->
    loop_reaches service handle_tool_call
      (S turn, ((messages ++ [MsgAssistant (content r)]) ++ [MsgToolResults rs])%list,
       ((tokens.1 + usage_input_tokens r)%Z, (tokens.2 + usage_output_tokens r)%Z)) st' ->
    loop_reaches service handle_tool_call (turn, messages, tokens) st'.

Definition with_collections (X : gset string) (s : session) : session :=
  {| allowed_uuids := allowed_uuids s;
     allowed_collections := X;
     created_at := created_at s;
     agent_type := agent_type s;
     primary_uuid := primary_uuid s;
     violation_count := violation_count s |}.

(** A stub LLM service that requests a tool on every call, here the
    orchestrator's [route_to_department] without its required
    [department] key. *)
Definition stub_tool_request_service (k : nat) (ms : list message) : outcome response :=
  Ok (mk_response "tool_use"
        [ToolUseBlock "toolu_1" "route_to_department" [("priority", JStr "high")]] 10 5).

Definition stub_orchestrator_handler : string -> dict -> outcome json :=
  orchestrator_handle_tool_call
    (fun _ _ _ => Ok (JObj [("success", JBool true)]))
    (fun _ _ _ _ => Ok (JObj [("success", JBool true)]))
    (fun _ _ _ _ => Ok (JObj [("success", JBool true)])).

Definition stub_echo_handler (name : string) (input : dict) : outcome json :=
  Ok (JObj [("tool", JStr name)]).

(** A stub classification that makes one LLM call. *)
Definition stub_classify (event : dict) (w : world) : world * option py_exc :=
  ({| agent_status := agent_status w; sessions := sessions w; llm_calls := S (llm_calls w);
      sessions_created := sessions_created w |}, None).

Definition finance_off_world : world :=
  {| agent_status := (set_agent_status default_agent_status "finance" false).2;
     sessions := ∅; llm_calls := 0; sessions_created := [] |}.

Definition finance_task : agent_task :=
  {| task_agent_type := "finance"; task_trigger_event := "items.create";
     task_collection := "invoices"; task_item_id := "INV-1"; task_context := [] |}.

Definition quoted (s : string) : string := dqs +++ s +++ dqs.

(** A model answer with the classification followed by more prose that
    contains a closing brace. *)
Definition prose_wrapped_answer : string :=
  "Classification: {" +++ quoted "department" +++ ": " +++ quoted "finance"
  +++ "} (schema: {})".

Definition first_object_text : string :=
  "{" +++ quoted "department" +++ ": " +++ quoted "finance" +++ "}".

Definition stub_route (department : json) (event : dict) (priority : json) : json :=
  JObj [("success", JBool true)].

(* ------------------------------------------------------------------ *)
(** * Lemmas on the validator and the registry *)

Lemma validate_access_cases (reg : registry) sid tn ti r reg' s :
  reg !! sid = Some s ->
  validate_access reg sid tn ti = (r, reg') ->
  (exists msg, r = Ok (false, msg) /\ reg' = <[sid := bump_violations s]> reg) \/
  (reg' = reg /\ forall msg, r <> Ok (false, msg)).
Proof.
  intros Hs Hv. unfold validate_access in Hv. rewrite Hs in Hv.
  destruct (negb _); [inversion Hv; subst; right; split; congruence|].
  destruct (requested_uuids ti) as [req|e]; [|inversion Hv; subst; right; split; congruence].
  destruct (collection_exemption ti) as [[c|]|e];
    try (inversion Hv; subst; right; split; congruence).
  destruct (decide (req = ∅)); [inversion Hv; subst; right; split; congruence|].
  destruct (decide (req ∖ allowed_uuids s = ∅));
    [inversion Hv; subst; right; split; congruence|].
  inversion Hv; subst. left. eauto.
Qed.

Lemma validate_access_other (reg : registry) sid sid' tn ti r reg' :
  validate_access reg sid tn ti = (r, reg') -> sid' <> sid -> reg' !! sid' = reg !! sid'.
Proof.
  intros Hv Hne. destruct (reg !! sid) as [s|] eqn:Hs.
  - destruct (validate_access_cases reg sid tn ti r reg' s Hs Hv) as [[msg [_ ->]]|[-> _]];
      [by rewrite lookup_insert_ne by congruence | done].
  - unfold validate_access in Hv. rewrite Hs in Hv. by inversion Hv.
Qed.

Lemma validate_access_unknown (reg : registry) sid tn ti :
  reg !! sid = None -> validate_access reg sid tn ti = (Ok (false, unknown_session_reason), reg).
Proof. intros Hs. unfold validate_access. by rewrite Hs. Qed.

Lemma bump_same s : same_but_count s (bump_violations s).
Proof. repeat split. Qed.

Lemma same_but_count_refl s : same_but_count s s.
Proof. repeat split. Qed.




Lemma step_no_create_absent (reg : registry) sid o :
  no_create sid o = true -> reg !! sid = None -> (step reg o).2 !! sid = None.
Proof.
  intros Hk Hs. destruct o as [sid' at0 p c add now|sid' tn ti|sid' now]; simpl in *.
  - apply negb_true_iff, String.eqb_neq in Hk. by rewrite lookup_insert_ne by congruence.
  - destruct (validate_access reg sid' tn ti) as [r reg'] eqn:Hv. simpl.
    destruct (String.eqb_spec sid sid') as [<-|Hne].
    + rewrite validate_access_unknown in Hv by done. by inversion Hv; subst.
    + by rewrite (validate_access_other reg sid' sid tn ti r reg' Hv Hne).
  - unfold end_session. destruct (reg !! sid') eqn:He; simpl; [|done].
    destruct (String.eqb_spec sid sid') as [<-|Hne].
    + apply lookup_delete_eq.
    + by rewrite lookup_delete_ne by congruence.
Qed.

Lemma run_no_create_absent (reg : registry) sid ops :
  forallb (no_create sid) ops = true -> reg !! sid = None -> (run reg ops).1 !! sid = None.
Proof.
  revert reg. induction ops as [|o ops IH]; intros reg Hk Hs; simpl; [done|].
  apply andb_true_iff in Hk as [Hk1 Hk2].
  pose proof (step_no_create_absent reg sid o Hk1 Hs) as Hs1.
  destruct (step reg o) as [r reg1]. simpl in *.
  specialize (IH reg1 Hk2 Hs1). destruct (run reg1 ops). done.
Qed.

Lemma collection_exemption_ok ti :
  collection_hashable ti = true -> exists c, collection_exemption ti = Ok c.
Proof.
  unfold collection_hashable, collection_exemption.
  destruct (dict_get "collection" ti) as [[]|]; simpl; intros H; try discriminate;
    try (destruct (bool_decide _)); try (destruct (is_read_action _)); eauto.
Qed.

Lemma validate_access_denies (reg : registry) sid s tn ti ids :
  reg !! sid = Some s ->
  String.prefix "mcp__directus__" tn = true ->
  requested_uuids ti = Ok ids ->
  collection_exemption ti = Ok None ->
  ~ ids ⊆ allowed_uuids s ->
  validate_access reg sid tn ti =
    (Ok (false, violation_msg (ids ∖ allowed_uuids s) (bump_violations s)),
     <[sid := bump_violations s]> reg).
Proof.
  intros Hs Hp Hr Hc Hn. unfold validate_access. rewrite Hs, Hp. simpl. rewrite Hr, Hc.
  destruct (decide (ids = ∅)) as [->|_]; [exfalso; apply Hn; set_solver|].
  destruct (decide (ids ∖ allowed_uuids s = ∅)) as [He|_]; [|done].
  exfalso. apply Hn. intros x Hx. destruct (decide (x ∈ allowed_uuids s)); [done|].
  assert (x ∈ ids ∖ allowed_uuids s) by set_solver. rewrite He in *. set_solver.
Qed.

Lemma validate_access_within (reg : registry) sid s tn ti ids :
  reg !! sid = Some s ->
  requested_uuids ti = Ok ids ->
  collection_hashable ti = true ->
  ids ⊆ allowed_uuids s ->
  exists reason, validate_access reg sid tn ti = (Ok (true, reason), reg).
Proof.
  intros Hs Hr Hh Hsub. destruct (collection_exemption_ok ti Hh) as [c Hc].
  unfold validate_access. rewrite Hs.
  destruct (negb _); [eauto|]. rewrite Hr, Hc.
  destruct c as [c|]; [eauto|].
  destruct (decide (ids = ∅)); [eauto|].
  destruct (decide (ids ∖ allowed_uuids s = ∅)) as [|Hne]; [eauto|].
  exfalso. apply Hne. set_solver.
Qed.

Lemma validate_access_exempt (reg : registry) sid s tn ti c ids :
  reg !! sid = Some s ->
  dict_get "collection" ti = Some (JStr c) ->
  c ∈ read_always_allowed ->
  dict_get "action" ti = Some (JStr "read") ->
  requested_uuids ti = Ok ids ->
  exists reason, validate_access reg sid tn ti = (Ok (true, reason), reg).
Proof.
  intros Hs Hc Hin Ha Hr. unfold validate_access. rewrite Hs.
  destruct (negb _); [eauto|]. rewrite Hr.
  unfold collection_exemption. rewrite Hc. simpl.
  rewrite bool_decide_eq_true_2 by done. rewrite Ha. simpl. eauto.
Qed.

Lemma collection_exemption_not_read ti c :
  dict_get "collection" ti = Some (JStr c) ->
  is_read_action (dict_get "action" ti) = false ->
  collection_exemption ti = Ok None.
Proof.
  intros Hc Ha. unfold collection_exemption. rewrite Hc. simpl.
  destruct (bool_decide _); [by rewrite Ha|done].
Qed.

Lemma requested_uuids_raise ti e :
  requested_uuids ti = Raise e -> exc_type e = "TypeError".
Proof.
  unfold requested_uuids, keys_ids.
  destruct (dict_get "keys" ti) as [ks|]; [|discriminate].
  destruct (py_truthy ks); [|discriminate].
  destruct ks; simpl; try discriminate; intros [= <-]; reflexivity.
Qed.

Lemma collection_exemption_raise ti :
  collection_hashable ti = false ->
  exists e, collection_exemption ti = Raise e /\ exc_type e = "TypeError".
Proof.
  unfold collection_hashable, collection_exemption.
  destruct (dict_get "collection" ti) as [[]|]; simpl; intros H; try discriminate; eauto.
Qed.

Lemma validate_access_nondirectus (reg : registry) sid s tn ti :
  reg !! sid = Some s -> String.prefix "mcp__directus__" tn = false ->
  validate_access reg sid tn ti = (Ok (true, "Non-Directus tool - allowed"), reg).
Proof. intros Hs Hp. unfold validate_access. by rewrite Hs, Hp. Qed.

Lemma validate_access_raises (reg : registry) sid s tn ti :
  reg !! sid = Some s -> String.prefix "mcp__directus__" tn = true ->
  extraction_ok ti = false \/ collection_hashable ti = false ->
  exists e, validate_access reg sid tn ti = (Raise e, reg) /\ exc_type e = "TypeError".
Proof.
  intros Hs Hp Hx. unfold validate_access. rewrite Hs, Hp. simpl.
  unfold extraction_ok in Hx.
  destruct (requested_uuids ti) as [ids|e] eqn:Hr.
  - destruct Hx as [Hx|Hx]; [discriminate|].
    destruct (collection_exemption_raise ti Hx) as (e & -> & He). eauto.
  - exists e. split; [done|]. by apply (requested_uuids_raise ti).
Qed.

Lemma validate_access_processable (reg : registry) sid s tn ti :
  reg !! sid = Some s ->
  extraction_ok ti = true -> collection_hashable ti = true ->
  (forall ids, requested_uuids ti = Ok ids -> ids ⊆ allowed_uuids s) ->
  exists reason, validate_access reg sid tn ti = (Ok (true, reason), reg).
Proof.
  intros Hs Hx Hh Hsub. unfold extraction_ok in Hx.
  destruct (requested_uuids ti) as [ids|e] eqn:Hr; [|discriminate].
  eapply validate_access_within; eauto.
Qed.

Lemma validate_access_exempt_read (reg : registry) sid s tn ti c :
  reg !! sid = Some s ->
  dict_get "collection" ti = Some (JStr c) ->
  c ∈ read_always_allowed ->
  dict_get "action" ti = Some (JStr "read") ->
  (extraction_ok ti = true ->
     exists reason, validate_access reg sid tn ti = (Ok (true, reason), reg)) /\
  (String.prefix "mcp__directus__" tn = true -> extraction_ok ti = false ->
     exists e, validate_access reg sid tn ti = (Raise e, reg) /\ exc_type e = "TypeError").
Proof.
  intros Hs Hc Hin Ha. split.
  - intros Hx. unfold extraction_ok in Hx.
    destruct (requested_uuids ti) as [ids|e] eqn:Hr; [|discriminate].
    eapply validate_access_exempt; eauto.
  - intros Hp Hx. eapply validate_access_raises; eauto.
Qed.

Lemma create_session_lookup (reg : registry) tok at0 p c add now :
  (create_session reg tok at0 p c add now).2 !! tok =
    Some {| allowed_uuids := {[p]} ∪ from_option id ∅ add;
            allowed_collections := {[c]};
            created_at := now;
            agent_type := at0;
            primary_uuid := p;
            violation_count := 0 |}.
Proof.
  unfold create_session. simpl. rewrite lookup_insert_eq. do 2 f_equal.
  destruct add as [add|]; simpl; [|set_solver].
  destruct (decide (add = ∅)) as [->|]; set_solver.
Qed.

Lemma step_create (reg : registry) sid at0 p c add now :
  (step reg (OpCreate sid at0 p c add now)).2 = (create_session reg sid at0 p c add now).2.
Proof. reflexivity. Qed.

Lemma step_inv (reg : registry) o :
  registry_inv reg -> registry_inv (step reg o).2.
Proof.
  intros Hinv sid s. destruct o as [sid' at0 p c add now|sid' tn ti|sid' now];
    [rewrite step_create|simpl..].
  - destruct (String.eqb_spec sid sid') as [<-|Hne].
    + rewrite create_session_lookup. intros [= <-]. simpl. set_solver.
    + unfold create_session. simpl. rewrite lookup_insert_ne by congruence. apply Hinv.
  - destruct (validate_access reg sid' tn ti) as [r reg'] eqn:Hv. simpl.
    destruct (reg !! sid') as [s0|] eqn:Hs0.
    + destruct (validate_access_cases reg sid' tn ti r reg' s0 Hs0 Hv) as [[msg [_ ->]]|[-> _]];
        [|apply Hinv].
      destruct (String.eqb_spec sid sid') as [<-|Hne].
      * rewrite lookup_insert_eq. intros [= <-]. simpl. by apply (Hinv sid).
      * rewrite lookup_insert_ne by congruence. apply Hinv.
    + rewrite validate_access_unknown in Hv by done. inversion Hv; subst. apply Hinv.
  - unfold end_session. destruct (reg !! sid'); simpl; [|apply Hinv].
    destruct (String.eqb_spec sid sid') as [<-|Hne].
    + by rewrite lookup_delete_eq.
    + rewrite lookup_delete_ne by congruence. apply Hinv.
Qed.

Lemma reachable_inv (reg : registry) : reachable reg -> registry_inv reg.
Proof.
  induction 1 as [|reg o _ IH _].
  - intros sid s. by rewrite lookup_empty.
  - by apply step_inv.
Qed.

Lemma step_preserves_live (reg : registry) o sid s s' :
  fresh_op reg o -> reg !! sid = Some s -> (step reg o).2 !! sid = Some s' ->
  same_but_count s s' /\ violation_count s <= violation_count s'.
Proof.
  intros Hf Hs Hs'. destruct o as [sid' at0 p c add now|sid' tn ti|sid' now]; simpl in *.
  - assert (sid <> sid') by congruence.
    unfold create_session in Hs'. simpl in Hs'. rewrite lookup_insert_ne in Hs' by congruence.
    rewrite Hs in Hs'. inversion Hs'; subst. split; [apply same_but_count_refl|lia].
  - destruct (validate_access reg sid' tn ti) as [r reg'] eqn:Hv. simpl in Hs'.
    destruct (String.eqb_spec sid sid') as [<-|Hne].
    + destruct (validate_access_cases reg sid tn ti r reg' s Hs Hv) as [[msg [_ ->]]|[-> _]].
      * rewrite lookup_insert_eq in Hs'. inversion Hs'; subst.
        split; [apply bump_same|simpl; lia].
      * rewrite Hs in Hs'. inversion Hs'; subst. split; [apply same_but_count_refl|lia].
    + rewrite (validate_access_other reg sid' sid tn ti r reg' Hv Hne), Hs in Hs'.
      inversion Hs'; subst. split; [apply same_but_count_refl|lia].
  - unfold end_session in Hs'. destruct (reg !! sid'); simpl in Hs'.
    + destruct (String.eqb_spec sid sid') as [<-|Hne].
      * by rewrite lookup_delete_eq in Hs'.
      * rewrite lookup_delete_ne, Hs in Hs' by congruence. inversion Hs'; subst.
        split; [apply same_but_count_refl|lia].
    + rewrite Hs in Hs'. inversion Hs'; subst. split; [apply same_but_count_refl|lia].
Qed.

(* ------------------------------------------------------------------ *)
(** * Claims about the session registry and the access validator *)


(** C2 (counterexample).  With the literal tool name [store_write], which
    lies outside the [mcp__directus__] namespace, the call with key
    [INV-2] is allowed, not denied. *)
Lemma C2_store_write_not_denied :
  let reg1 := (create_session ∅ "sid-1" "finance" "INV-1" "invoices" None 0).2 in
  validate_access reg1 "sid-1" "store_write" [("key", JStr "INV-2")] =
    (Ok (true, "Non-Directus tool - allowed"), reg1).
Proof. vm_compute. reflexivity. Qed.

(** C2 (amended).  After [create_session("finance", "INV-1", "invoices")],
    a data-store call (tool name in the [mcp__directus__] namespace) with
    key [INV-1] is allowed, and with key [INV-2] is denied with a reason
    starting with ["ACCESS DENIED"]; a call named [store_write] is outside
    that namespace and is allowed whatever its input. *)
Theorem C2_scenario_amended (reg : registry) tok now tn :
  String.prefix "mcp__directus__" tn = true ->
  let reg1 := (create_session reg tok "finance" "INV-1" "invoices" None now).2 in
  validate_access reg1 tok tn [("key", JStr "INV-1")] = (Ok (true, "Access validated"), reg1) /\
  (exists msg reg2,
     validate_access reg1 tok tn [("key", JStr "INV-2")] = (Ok (false, msg), reg2) /\
     String.prefix "ACCESS DENIED" msg = true) /\
  (forall ti, validate_access reg1 tok "store_write" ti =
                (Ok (true, "Non-Directus tool - allowed"), reg1)).
Proof.
  intros Hp reg1. pose proof (create_session_lookup reg tok "finance" "INV-1" "invoices" None now) as Hl.
  fold reg1 in Hl. simpl in Hl. split; [|split].
  - unfold validate_access. rewrite Hl, Hp. simpl.
    destruct (decide _) as [Hc|_]; [exfalso; set_solver|].
    destruct (decide _) as [_|Hc]; [done|]. exfalso. apply Hc. set_solver.
  - eexists _, _. split.
    + eapply (validate_access_denies reg1 tok _ tn _ {["INV-2"]}); [exact Hl|exact Hp|..].
      * unfold requested_uuids. simpl. f_equal; set_solver.
      * reflexivity.
      * intros Hsub. assert ("INV-2" ∈ ({["INV-1"]} ∪ ∅ : gset string)) as Hin by set_solver.
        apply elem_of_union in Hin as [Hin|Hin]; [|set_solver].
        apply elem_of_singleton in Hin. discriminate.
    + reflexivity.
  - intros ti. unfold validate_access. rewrite Hl. reflexivity.
Qed.

Lemma C2_scenario_amended_witness :
  String.prefix "mcp__directus__" "mcp__directus__update_item" = true /\
  validate_access (create_session ∅ "sid-1" "finance" "INV-1" "invoices" None 0).2
    "sid-1" "mcp__directus__update_item" [("key", JStr "INV-1")] =
    (Ok (true, "Access validated"), (create_session ∅ "sid-1" "finance" "INV-1" "invoices" None 0).2).
Proof.
  split; [reflexivity|].
  exact (proj1 (C2_scenario_amended ∅ "sid-1" 0 "mcp__directus__update_item" eq_refl)).
Defined.

(** C3 (counterexample).  A read of the always-readable [agent_logs]
    collection whose [keys] is the integer [5] is not allowed: the id
    extraction iterates [keys] before the collection is looked at, and
    raises a TypeError. *)
Lemma C3_keys_not_iterable_raises :
  validate_access demo_registry "sid-1" "mcp__directus__read_items"
    [("collection", JStr "agent_logs"); ("action", JStr "read"); ("keys", JInt 5)] =
    (Raise (mk_exc "TypeError" "'int' object is not iterable"), demo_registry).
Proof. vm_compute. reflexivity. Qed.

(** C3 (amended).  On a live session, a call whose input names a
    collection of the always-readable allowlist and declares
    [action = "read"] is allowed whatever ids it references, and the
    registry is untouched, whenever its id extraction does not raise; when
    it does (a truthy [keys] that is not iterable), a data-store call
    raises a TypeError before the exemption is checked, and the registry
    is untouched.  On the same collection with any other action, a
    data-store call gets the normal id check: allowed when the requested
    ids are within [allowed_uuids], otherwise denied with the violation
    count incremented by one; and it raises the same TypeError when the
    extraction does. *)
Theorem C3_read_exemption_amended :
  (forall (reg : registry) sid s tn ti c,
     reg !! sid = Some s ->
     dict_get "collection" ti = Some (JStr c) ->
     c ∈ read_always_allowed ->
     dict_get "action" ti = Some (JStr "read") ->
     (extraction_ok ti = true ->
        exists reason, validate_access reg sid tn ti = (Ok (true, reason), reg)) /\
     (String.prefix "mcp__directus__" tn = true -> extraction_ok ti = false ->
        exists e, validate_access reg sid tn ti = (Raise e, reg) /\ exc_type e = "TypeError")) /\
  (forall (reg : registry) sid s tn ti c,
     reg !! sid = Some s ->
     String.prefix "mcp__directus__" tn = true ->
     dict_get "collection" ti = Some (JStr c) ->
     c ∈ read_always_allowed ->
     is_read_action (dict_get "action" ti) = false ->
     (forall ids, requested_uuids ti = Ok ids ->
        (ids ⊆ allowed_uuids s ->
           exists reason, validate_access reg sid tn ti = (Ok (true, reason), reg)) /\
        (~ ids ⊆ allowed_uuids s ->
           exists msg, validate_access reg sid tn ti =
             (Ok (false, msg), <[sid := bump_violations s]> reg))) /\
     (extraction_ok ti = false ->
        exists e, validate_access reg sid tn ti = (Raise e, reg) /\ exc_type e = "TypeError")).
Proof.
  split.
  - intros reg sid s tn ti c Hs Hc Hin Ha. by apply (validate_access_exempt_read reg sid s tn ti c).
  - intros reg sid s tn ti c Hs Hp Hc Hin Ha.
    pose proof (collection_exemption_not_read ti c Hc Ha) as Hce. split.
    + intros ids Hr. split.
      * intros Hsub. eapply validate_access_within; eauto.
        unfold collection_hashable. by rewrite Hc.
      * intros Hn. eexists. by apply validate_access_denies.
    + intros Hx. eapply validate_access_raises; eauto.
Qed.

(** C4.  [end_session] on an id with no live session returns the
    ["Session not found"] error and changes nothing; after a successful
    [end_session(id)], through any later operations that do not issue the
    same token again, every [validate(id, ...)] is denied with the unknown
    session reason and every further [end_session(id)] returns the error
    again. *)
Theorem C4_end_session_once :
  (forall (reg : registry) sid now,
     reg !! sid = None -> end_session reg sid now = (EndError "Session not found", reg)) /\
  (forall (reg : registry) sid now sm reg1 ops,
     end_session reg sid now = (EndSummary sm, reg1) ->
     forallb (no_create sid) ops = true ->
     let reg2 := (run reg1 ops).1 in
     (forall tn ti, validate_access reg2 sid tn ti = (Ok (false, unknown_session_reason), reg2)) /\
     (forall now', end_session reg2 sid now' = (EndError "Session not found", reg2))).
Proof.
  split.
  - intros reg sid now Hs. unfold end_session. by rewrite Hs.
  - intros reg sid now sm reg1 ops He Hk reg2.
    assert (reg1 !! sid = None) as H1.
    { unfold end_session in He. destruct (reg !! sid); inversion He; subst.
      apply lookup_delete_eq. }
    pose proof (run_no_create_absent reg1 sid ops Hk H1) as H2. fold reg2 in H2.
    split.
    + intros tn ti. by apply validate_access_unknown.
    + intros now'. unfold end_session. by rewrite H2.
Qed.

(** C5.  In every reachable registry each live session's [allowed_uuids]
    contains its primary id and so is non-empty; and no operation (with
    [create_session] issuing a token no live session holds, as
    [uuid.uuid4()] does) changes any field of a session that stays live
    other than [violation_count], which never decreases. *)
Theorem C5_allowed_ids_stable :
  (forall (reg : registry), reachable reg ->
     forall sid s, reg !! sid = Some s ->
       primary_uuid s ∈ allowed_uuids s /\ allowed_uuids s <> ∅) /\
  (forall (reg : registry) o, fresh_op reg o ->
     forall sid s s', reg !! sid = Some s -> (step reg o).2 !! sid = Some s' ->
       same_but_count s s' /\ allowed_uuids s ⊆ allowed_uuids s' /\
       violation_count s <= violation_count s').
Proof.
  split.
  - intros reg Hr sid s Hs. pose proof (reachable_inv reg Hr sid s Hs) as Hin.
    split; [done|]. intros He. rewrite He in Hin. set_solver.
  - intros reg o Hf sid s s' Hs Hs'.
    destruct (step_preserves_live reg o sid s s' Hf Hs Hs') as [Hsame Hle].
    split; [done|]. split; [|done]. destruct Hsame as [-> _]. done.
Qed.

(** C6 (counterexample).  A data-store call on the session of
    [demo_registry] that references only its primary id [INV-1], but
    names its collection as a list, is not allowed: [collection in
    read_always_allowed] raises a TypeError. *)
Lemma C6_unhashable_collection_raises :
  primary_uuid demo_session = "INV-1" /\
  validate_access demo_registry "sid-1" "mcp__directus__read_items"
    [("key", JStr "INV-1"); ("collection", JList [JStr "invoices"])] =
    (Raise (mk_exc "TypeError" "unhashable type: 'list'"), demo_registry).
Proof. split; [reflexivity|]. vm_compute. reflexivity. Qed.

(** C6 (amended).  [create_session] is total and seeds [allowed_uuids]
    with [{primary_uuid} ∪ additional_uuids] (an absent or empty set of
    additional ids adds nothing).  In every reachable registry, a validate
    call on a live session whose input references no id other than the
    session's primary id is allowed, leaving the registry unchanged, when
    it is outside the data-store namespace or its input can be processed
    (id extraction does not raise, the collection value is hashable); a
    data-store call whose input cannot be processed raises a TypeError and
    leaves the registry unchanged. *)
Theorem C6_primary_allowed_amended :
  (forall (reg : registry) tok at0 p c add now,
     exists s, (create_session reg tok at0 p c add now).2 !! tok = Some s /\
       allowed_uuids s = {[p]} ∪ from_option id ∅ add /\ primary_uuid s = p) /\
  (forall (reg : registry), reachable reg ->
     forall sid s tn ti,
       reg !! sid = Some s ->
       (forall ids, requested_uuids ti = Ok ids -> ids ⊆ {[primary_uuid s]}) ->
       ((String.prefix "mcp__directus__" tn = false \/
         (extraction_ok ti = true /\ collection_hashable ti = true)) ->
          exists reason, validate_access reg sid tn ti = (Ok (true, reason), reg)) /\
       (String.prefix "mcp__directus__" tn = true ->
        extraction_ok ti = false \/ collection_hashable ti = false ->
          exists e, validate_access reg sid tn ti = (Raise e, reg) /\ exc_type e = "TypeError")).
Proof.
  split.
  - intros. eexists. split; [apply create_session_lookup|]. done.
  - intros reg Hr sid s tn ti Hs Hsub.
    pose proof (reachable_inv reg Hr sid s Hs) as Hin. split.
    + intros [Hp|[Hx Hh]].
      * exists "Non-Directus tool - allowed". by eapply validate_access_nondirectus.
      * eapply validate_access_processable; eauto.
        intros ids Hids. specialize (Hsub ids Hids). set_solver.
    + intros Hp Hbad. by eapply validate_access_raises.
Qed.

(** C10 (counterexample).  Two data-store calls on the session of
    [demo_registry] from which no id is extracted are not allowed: a
    creation in a collection given as a list, and a call whose [keys] is
    the integer [5]; both raise a TypeError. *)
Lemma C10_unprocessable_inputs_raise :
  validate_access demo_registry "sid-1" "mcp__directus__create_item"
    [("collection", JList [JStr "payments"]); ("data", JObj [("amount", JInt 5)])] =
    (Raise (mk_exc "TypeError" "unhashable type: 'list'"), demo_registry) /\
  validate_access demo_registry "sid-1" "mcp__directus__read_items"
    [("collection", JStr "payments"); ("keys", JInt 5)] =
    (Raise (mk_exc "TypeError" "'int' object is not iterable"), demo_registry).
Proof. split; vm_compute; reflexivity. Qed.

(** C10 (amended).  The validator never denies because of the target
    collection: on a live session, a data-store call whose extracted ids
    (possibly none) all lie in [allowed_uuids] is allowed, whatever
    collection it names, when its input can be processed (id extraction
    does not raise, the collection value is hashable), and otherwise
    raises a TypeError; neither changes the registry.  The decision never
    depends on [allowed_collections]. *)
Theorem C10_collection_never_denies_amended :
  (forall (reg : registry) sid s tn ti,
     reg !! sid = Some s ->
     String.prefix "mcp__directus__" tn = true ->
     (forall ids, requested_uuids ti = Ok ids -> ids ⊆ allowed_uuids s) ->
     (extraction_ok ti = true -> collection_hashable ti = true ->
        exists reason, validate_access reg sid tn ti = (Ok (true, reason), reg)) /\
     (extraction_ok ti = false \/ collection_hashable ti = false ->
        exists e, validate_access reg sid tn ti = (Raise e, reg) /\ exc_type e = "TypeError")) /\
  (forall (reg : registry) sid s X tn ti,
     reg !! sid = Some s ->
     (validate_access (<[sid := with_collections X s]> reg) sid tn ti).1 =
     (validate_access reg sid tn ti).1).
Proof.
  split.
  - intros reg sid s tn ti Hs Hp Hsub. split.
    + intros Hx Hh. eapply validate_access_processable; eauto.
    + intros Hbad. by eapply validate_access_raises.
  - intros reg sid s X tn ti Hs. unfold validate_access.
    rewrite lookup_insert_eq, Hs. simpl.
    destruct (negb _); [done|]. destruct (requested_uuids ti); [|done].
    destruct (collection_exemption ti) as [[]|]; [done| |done].
    repeat (destruct (decide _)); done.
Qed.

(* ------------------------------------------------------------------ *)
(** * Lemmas on the conversation driver *)

Lemma tool_loop_calls_le service handler max_turns n turn messages tokens :
  (tool_loop service handler max_turns n turn messages tokens).2 <= turn + n.
Proof.
  revert turn messages tokens. induction n as [|n IH]; intros turn messages tokens; simpl.
  - lia.
  - destruct (service turn messages) as [resp|e]; simpl; [|lia].
    destruct (String.eqb _ "end_turn"); simpl; [lia|].
    destruct (String.eqb _ "tool_use"); simpl; [|lia].
    destruct (run_tool_calls handler _); simpl; [|lia].
    specialize (IH (S turn) ((messages ++ [MsgAssistant (content resp)]) ++ [MsgToolResults a])%list
                  ((tokens.1 + usage_input_tokens resp)%Z, (tokens.2 + usage_output_tokens resp)%Z)).
    lia.
Qed.

Lemma run_tool_calls_total handler bs :
  (forall name input, exists v, handler name input = Ok v) ->
  exists rs, run_tool_calls handler bs = Ok rs.
Proof.
  intros Hh. induction bs as [|b bs IH]; simpl; [eauto|].
  destruct b as [t|id name input|ty]; try exact IH.
  destruct (Hh name input) as [v ->]. destruct IH as [rs ->]. eauto.
Qed.

Lemma tool_loop_exhausts service handler max_turns n turn messages tokens :
  (forall k m, exists r, service k m = Ok r /\ stop_reason r = "tool_use") ->
  (forall name input, exists v, handler name input = Ok v) ->
  exists tokens', tool_loop service handler max_turns n turn messages tokens =
    ((false, "Exceeded maximum turns (" +++ pretty max_turns +++ ")", tokens'), turn + n).
Proof.
  intros Hs Hh. revert turn messages tokens.
  induction n as [|n IH]; intros turn messages tokens; simpl.
  - exists tokens. by rewrite Nat.add_0_r.
  - destruct (Hs turn messages) as (resp & -> & Hst). rewrite Hst. simpl.
    destruct (run_tool_calls_total handler (content resp) Hh) as [rs ->].
    destruct (IH (S turn) ((messages ++ [MsgAssistant (content resp)]) ++ [MsgToolResults rs])%list
                 ((tokens.1 + usage_input_tokens resp)%Z, (tokens.2 + usage_output_tokens resp)%Z))
      as [tok' Heq].
    exists tok'. rewrite Heq. f_equal. lia.
Qed.

(* ------------------------------------------------------------------ *)
(** * Claims about the conversation driver *)

(** C7 (counterexample).  With [max_turns = 10] and a service that returns
    a tool request on every response, the loop stops after one service
    call with an ["Error during tool execution"] failure when the tool
    handler raises (here a KeyError for the missing [department]), not
    after ten calls with the turn-budget failure. *)
Lemma C7_handler_error_stops_early :
  invoke_with_tools stub_tool_request_service stub_orchestrator_handler "task" 10 =
    ((false, "Error during tool execution: 'department'", (10, 5)%Z), 1).
Proof. vm_compute. reflexivity. Qed.

Lemma tool_loop_budget_or_error service handler max_turns n turn messages tokens :
  (forall k m, exists r, service k m = Ok r /\ stop_reason r = "tool_use") ->
  (exists tokens', tool_loop service handler max_turns n turn messages tokens =
     ((false, "Exceeded maximum turns (" +++ pretty max_turns +++ ")", tokens'), turn + n)) \/
  (exists k ms tok r e,
     loop_reaches service handler (turn, messages, tokens) (k, ms, tok) /\
     k < turn + n /\
     service k ms = Ok r /\ run_tool_calls handler (content r) = Raise e /\
     tool_loop service handler max_turns n turn messages tokens =
       ((false, tool_error e, ((tok.1 + usage_input_tokens r)%Z, (tok.2 + usage_output_tokens r)%Z)),
        S k)).
Proof.
  intros Hs. revert turn messages tokens.
  induction n as [|n IH]; intros turn messages tokens.
  - left. exists tokens. simpl. by rewrite Nat.add_0_r.
  - destruct (Hs turn messages) as (r & Hr & Hst). simpl. rewrite Hr, Hst. simpl.
    destruct (run_tool_calls handler (content r)) as [rs|e] eqn:Hrun.
    + destruct (IH (S turn) ((messages ++ [MsgAssistant (content r)]) ++ [MsgToolResults rs])%list
                 ((tokens.1 + usage_input_tokens r)%Z, (tokens.2 + usage_output_tokens r)%Z))
        as [[tok' Heq]|(k & ms & tok & r' & e & Hreach & Hk & Hr' & He & Heq)].
      * left. exists tok'. rewrite Heq. f_equal. lia.
      * right. exists k, ms, tok, r', e. split; [|split; [lia|done]].
        by eapply loop_reaches_step.
    + right. exists turn, messages, tokens, r, e.
      split; [constructor|]. split; [lia|]. done.
Qed.

(** C7 (amended).  For every bound [max_turns], the tool loop never makes
    more than [max_turns] service calls.  Whenever a response requests
    tools and the tool handler raises on one of its tool calls, the loop
    stops right after that service call with ["Error during tool
    execution: ..."].  So if every service response is a tool request,
    the loop either makes exactly [max_turns] calls and fails with
    ["Exceeded maximum turns (max_turns)"], or it stops after [k + 1 <=
    max_turns] calls with the error that the handler raised on the tool
    calls of the response to its [k]-th call, in a state the loop
    reached. *)
Theorem C7_turn_budget_amended :
  (forall service handler prompt max_turns,
     (invoke_with_tools service handler prompt max_turns).2 <= max_turns) /\
  (forall service handler max_turns n turn messages tokens r e,
     service turn messages = Ok r -> stop_reason r = "tool_use" ->
     run_tool_calls handler (content r) = Raise e ->
     tool_loop service handler max_turns (S n) turn messages tokens =
       ((false, tool_error e, ((tokens.1 + usage_input_tokens r)%Z,
                               (tokens.2 + usage_output_tokens r)%Z)), S turn)) /\
  (forall service handler prompt max_turns,
     (forall k m, exists r, service k m = Ok r /\ stop_reason r = "tool_use") ->
     (exists tokens, invoke_with_tools service handler prompt max_turns =
        ((false, "Exceeded maximum turns (" +++ pretty max_turns +++ ")", tokens), max_turns)) \/
     (exists k ms tok r e,
        loop_reaches service handler (0, [MsgUser prompt], (0, 0)%Z) (k, ms, tok) /\
        S k <= max_turns /\
        service k ms = Ok r /\ run_tool_calls handler (content r) = Raise e /\
        invoke_with_tools service handler prompt max_turns =
          ((false, tool_error e, ((tok.1 + usage_input_tokens r)%Z,
                                  (tok.2 + usage_output_tokens r)%Z)), S k))).
Proof.
  split; [|split].
  - intros. unfold invoke_with_tools. pose proof (tool_loop_calls_le service handler
      max_turns max_turns 0 [MsgUser prompt] (0, 0)%Z). lia.
  - intros service handler max_turns n turn messages tokens r e Hr Hst He. simpl.
    rewrite Hr, Hst. simpl. by rewrite He.
  - intros service handler prompt max_turns Hs. unfold invoke_with_tools.
    destruct (tool_loop_budget_or_error service handler max_turns max_turns 0 [MsgUser prompt]
                (0, 0)%Z Hs) as [H|(k & ms & tok & r & e & H1 & H2 & H3 & H4 & H5)].
    + left. exact H.
    + right. exists k, ms, tok, r, e. repeat split; [done|lia|done|done|done].
Qed.

Lemma C7_turn_budget_amended_witness :
  (exists tokens,
     invoke_with_tools stub_tool_request_service stub_echo_handler "task" 10 =
       ((false, "Exceeded maximum turns (" +++ pretty 10 +++ ")", tokens), 10)) \/
  (exists k ms tok r e,
     loop_reaches stub_tool_request_service stub_echo_handler (0, [MsgUser "task"], (0, 0)%Z)
       (k, ms, tok) /\
     S k <= 10 /\
     stub_tool_request_service k ms = Ok r /\ run_tool_calls stub_echo_handler (content r) = Raise e /\
     invoke_with_tools stub_tool_request_service stub_echo_handler "task" 10 =
       ((false, tool_error e, ((tok.1 + usage_input_tokens r)%Z,
                               (tok.2 + usage_output_tokens r)%Z)), S k)).
Proof.
  apply (proj2 (proj2 C7_turn_budget_amended) stub_tool_request_service stub_echo_handler "task" 10).
  intros k m. eexists. split; reflexivity.
Defined.

(* ------------------------------------------------------------------ *)
(** * Claims about dispatch *)

(** C8.  When the flag of the task's agent type is off (or the type is
    unknown), [invoke_claude_agent] returns the failure ["Agent '...' is
    currently disabled"] and leaves the world as it was: no LLM call and
    no session created. *)
Theorem C8_disabled_agent_rejected started classify task tok now clock w :
  is_agent_enabled (agent_status w) (task_agent_type task) = false ->
  invoke_claude_agent started classify task tok now clock w =
    (failure_response task ("Agent '" +++ task_agent_type task +++ "' is currently disabled")
       ["Task rejected: agent disabled at " +++ clock], w) /\
  llm_calls (invoke_claude_agent started classify task tok now clock w).2 = llm_calls w /\
  sessions (invoke_claude_agent started classify task tok now clock w).2 = sessions w /\
  sessions_created (invoke_claude_agent started classify task tok now clock w).2 =
    sessions_created w.
Proof.
  intros Hd. unfold invoke_claude_agent. rewrite Hd. simpl. done.
Qed.

Lemma C8_disabled_agent_rejected_witness :
  is_agent_enabled (agent_status finance_off_world) "finance" = false /\
  llm_calls (invoke_claude_agent true stub_classify finance_task "sid-1" 0 "09:00:00"
               finance_off_world).2 = 0.
Proof.
  split; [reflexivity|].
  exact (proj1 (proj2 (C8_disabled_agent_rejected true stub_classify finance_task "sid-1" 0
                         "09:00:00" finance_off_world eq_refl))).
Defined.

Example enabled_finance_creates_session :
  sessions_created (invoke_claude_agent true stub_classify finance_task "sid-1" 0 "09:00:00"
    {| agent_status := default_agent_status; sessions := ∅; llm_calls := 0;
       sessions_created := [] |}).2 = ["sid-1"].
Proof. vm_compute. reflexivity. Qed.

(* ------------------------------------------------------------------ *)
(** * Claims about the classification router *)

(** C9 (counterexample).  The answer contains the well-formed object
    [{"department": "finance"}] as its first JSON object, yet the router
    parses the span from the first brace to the last one, which is not
    JSON, and records a parse error with no classification. *)
Lemma C9_first_object_not_extracted :
  String.index 0 first_object_text prose_wrapped_answer = Some 16 /\
  json_loads first_object_text = Ok (JObj [("department", JStr "finance")]) /\
  classify_and_route [] stub_route [] (true, prose_wrapped_answer) =
    Ok {| rr_success := true;
          rr_data := Some {| rd_output := prose_wrapped_answer; rd_classification := None;
                             rd_routing := None;
                             rd_parse_error := Some (json_decode_error "Extra data") |};
          rr_error := None |}.
Proof. vm_compute. repeat split. Qed.

(** C9 (amended).  The router takes as JSON text the part after the first
    ```json fence up to the next ``` when the output has such a fence,
    otherwise the span from the first [{] to the last [}] when it has a
    [{], otherwise the whole output ([extract_json_str]), and parses it
    with [json.loads].  An execution failure is returned unchanged,
    unsuccessful and without any parse attempt.  After a successful
    execution, when there is no closing brace or the text is not valid
    JSON, the successful result records a parse error and no
    classification; when the text is a JSON object with a department
    field, the result records that object as the classification. *)
Theorem C9_router_parse_amended :
  (forall agents route event output,
     classify_and_route agents route event (false, output) =
       Ok {| rr_success := false; rr_data := None; rr_error := Some output |}) /\
  (forall agents route event output e,
     (extract_json_str output = Raise e \/
      exists t, extract_json_str output = Ok t /\ json_loads t = Raise e) ->
     classify_and_route agents route event (true, output) =
       Ok {| rr_success := true;
             rr_data := Some {| rd_output := output; rd_classification := None;
                                rd_routing := None; rd_parse_error := Some e |};
             rr_error := None |}) /\
  (forall agents route event output t c,
     extract_json_str output = Ok t ->
     json_loads t = Ok (JObj c) ->
     dict_has "department" c = true ->
     exists d, classify_and_route agents route event (true, output) =
                 Ok {| rr_success := true; rr_data := Some d; rr_error := None |} /\
               rd_output d = output /\ rd_classification d = Some (JObj c)).
Proof.
  split; [|split].
  - intros. reflexivity.
  - intros agents route event output e [He|(t & Ht & He)]; simpl.
    + by rewrite He.
    + by rewrite Ht, He.
  - intros agents route event output t c Ht Hl Hd. simpl. rewrite Ht, Hl.
    unfold dict_has in Hd. unfold dict_getitem.
    destruct (dict_get "department" c) as [dv|] eqn:Hdv; [|discriminate].
    destruct (department_of dv) as [dept|e].
    + destruct (bool_decide _ && _); eexists; split; try reflexivity; done.
    + eexists; split; [reflexivity|]. done.
Qed.

Lemma C9_router_parse_amended_witness :
  exists d, classify_and_route [] stub_route [] (true, "```json" +++ first_object_text +++ "```") =
              Ok {| rr_success := true; rr_data := Some d; rr_error := None |} /\
            rd_output d = "```json" +++ first_object_text +++ "```" /\
            rd_classification d = Some (JObj [("department", JStr "finance")]).
Proof.
  apply (proj2 (proj2 C9_router_parse_amended) [] stub_route [] _ first_object_text);
    vm_compute; reflexivity.
Defined.

(* ------------------------------------------------------------------ *)
(** * Instances of the registry and validator claims *)



Lemma C3_read_exemption_amended_witness :
  exists reason,
    validate_access demo_registry "sid-1" "mcp__directus__read_items" agent_logs_read =
      (Ok (true, reason), demo_registry).
Proof.
  apply (proj1 (proj1 C3_read_exemption_amended demo_registry "sid-1" demo_session
                  "mcp__directus__read_items" agent_logs_read "agent_logs"
                  eq_refl eq_refl ltac:(simpl; set_solver) eq_refl)).
  reflexivity.
Defined.

Lemma C4_end_session_once_witness :
  let reg2 := (run (end_session demo_registry "sid-1" 5%Z).2
                 [OpValidate "sid-1" "mcp__directus__read_items" [("key", JStr "INV-1")]]).1 in
  (forall tn ti, validate_access reg2 "sid-1" tn ti = (Ok (false, unknown_session_reason), reg2)) /\
  (forall now', end_session reg2 "sid-1" now' = (EndError "Session not found", reg2)).
Proof.
  eapply (proj2 C4_end_session_once demo_registry "sid-1" 5%Z); reflexivity.
Defined.

Lemma C5_allowed_ids_stable_witness :
  primary_uuid demo_session ∈ allowed_uuids demo_session /\ allowed_uuids demo_session <> ∅.
Proof.
  apply (proj1 C5_allowed_ids_stable demo_registry
           (reach_step ∅ (OpCreate "sid-1" "finance" "INV-1" "invoices" None 0) reach_empty
              eq_refl)
           "sid-1" demo_session).
  reflexivity.
Defined.

Lemma C6_primary_allowed_amended_witness :
  exists reason,
    validate_access demo_registry "sid-1" "mcp__directus__update_item" [("key", JStr "INV-1")] =
      (Ok (true, reason), demo_registry).
Proof.
  refine (proj1 (proj2 C6_primary_allowed_amended demo_registry
            (reach_step ∅ (OpCreate "sid-1" "finance" "INV-1" "invoices" None 0) reach_empty
               eq_refl)
            "sid-1" demo_session "mcp__directus__update_item" [("key", JStr "INV-1")] eq_refl _) _).
  - intros ids Hids. unfold requested_uuids, keys_ids in Hids. simpl in Hids.
    injection Hids as <-. unfold key_ids, data_ids. simpl. set_solver.
  - right. split; reflexivity.
Defined.

Lemma C10_collection_never_denies_amended_witness :
  exists reason,
    validate_access demo_registry "sid-1" "mcp__directus__create_item"
      [("collection", JStr "payments"); ("data", JObj [("amount", JInt 5)])] =
      (Ok (true, reason), demo_registry).
Proof.
  refine (proj1 (proj1 C10_collection_never_denies_amended demo_registry "sid-1" demo_session
            "mcp__directus__create_item"
            [("collection", JStr "payments"); ("data", JObj [("amount", JInt 5)])] eq_refl eq_refl
            _) _ _); [|reflexivity..].
  intros ids Hids. unfold requested_uuids, keys_ids in Hids. simpl in Hids.
  injection Hids as <-. unfold data_ids, payload_id. simpl. set_solver.
Defined.

(* ------------------------------------------------------------------ *)
(** * Properties of the agent control endpoints *)

Lemma load_status_items_dom (st : gmap string bool) saved :
  dom (load_status_items st saved) = dom st.
Proof.
  unfold load_status_items. revert st. induction saved as [|[k v] saved IH]; intros st; simpl.
  - done.
  - rewrite IH. destruct (st !! k) eqn:Hk; [|done].
    rewrite dom_insert_L. apply elem_of_dom_2 in Hk. set_solver.
Qed.

Lemma set_agent_status_dom (st : gmap string bool) t e :
  dom (set_agent_status st t e).2 = dom st.
Proof.
  unfold set_agent_status. destruct (st !! t) eqn:Ht; simpl; [|done].
  rewrite dom_insert_L. apply elem_of_dom_2 in Ht. set_solver.
Qed.

Lemma control_step_dom (st : gmap string bool) o : dom (control_step st o) = dom st.
Proof.
  destruct o as [t e|t|t|t| | |r]; simpl.
  - apply set_agent_status_dom.
  - unfold enable_agent. destruct (st !! t); [apply set_agent_status_dom|done].
  - unfold disable_agent. destruct (st !! t); [apply set_agent_status_dom|done].
  - unfold toggle_agent. destruct (st !! t); [apply set_agent_status_dom|done].
  - unfold disable_all_agents. apply dom_fmap_L.
  - unfold enable_all_agents. apply dom_fmap_L.
  - unfold load_agent_status_from_directus.
    destruct r as [[| | | | | |r]|]; try done.
    destruct (match dict_get "data" r with Some v => v | None => JList [] end)
      as [| | | | |[|[| | | | | |item] l]|]; try done.
    destruct (match dict_get "value" item with Some v => v | None => JObj [] end); try done.
    apply load_status_items_dom.
Qed.

Lemma control_run_dom (st : gmap string bool) ops : dom (control_run st ops) = dom st.
Proof.
  unfold control_run. revert st. induction ops as [|o ops IH]; intros st; simpl; [done|].
  rewrite IH. apply control_step_dom.
Qed.

Lemma not_in_dom_disabled (st : gmap string bool) t :
  t ∉ dom st -> is_agent_enabled st t = false.
Proof.
  intros H. unfold is_agent_enabled. apply not_elem_of_dom in H. by rewrite H.
Qed.

(** [set_agent_status] on a known agent type reports [True] and sets that
    flag only; on an unknown type it reports [False] and changes nothing. *)
Theorem set_agent_status_update (st : gmap string bool) t e :
  (st !! t = None -> set_agent_status st t e = (false, st)) /\
  (is_Some (st !! t) ->
     (set_agent_status st t e).1 = true /\
     forall t', is_agent_enabled (set_agent_status st t e).2 t' =
                if String.eqb t t' then e else is_agent_enabled st t').
Proof.
  split.
  - intros H. unfold set_agent_status. by rewrite H.
  - intros [b Hb]. unfold set_agent_status. rewrite Hb. simpl. split; [done|].
    intros t'. unfold is_agent_enabled. destruct (String.eqb_spec t t') as [<-|Hne].
    + by rewrite lookup_insert_eq.
    + by rewrite lookup_insert_ne.
Qed.

Lemma set_agent_status_update_witness :
  set_agent_status default_agent_status "zzz" true = (false, default_agent_status) /\
  is_agent_enabled (set_agent_status default_agent_status "finance" false).2 "finance" = false.
Proof.
  split.
  - apply (proj1 (set_agent_status_update default_agent_status "zzz" true)). reflexivity.
  - rewrite (proj2 (proj2 (set_agent_status_update default_agent_status "finance" false)
                          (ex_intro _ true eq_refl)) "finance").
    reflexivity.
Defined.

(** No sequence of control operations (set, enable, disable, toggle,
    disable-all, enable-all, load from Directus) adds or removes an agent
    type; so an agent type outside the seven defaults is never enabled and
    every task for it is rejected as disabled. *)
Theorem control_ops_never_enable_unknown ops t :
  dom (control_run default_agent_status ops) = dom default_agent_status /\
  (default_agent_status !! t = None ->
     is_agent_enabled (control_run default_agent_status ops) t = false).
Proof.
  split; [apply control_run_dom|]. intros Ht. apply not_in_dom_disabled.
  rewrite control_run_dom. by apply not_elem_of_dom.
Qed.

Lemma control_ops_never_enable_unknown_witness :
  is_agent_enabled (control_run default_agent_status [CtlEnableAll; CtlToggle "sales"]) "sales"
  = false.
Proof.
  apply (proj2 (control_ops_never_enable_unknown [CtlEnableAll; CtlToggle "sales"] "sales")).
  reflexivity.
Defined.

(** Toggling an agent type flips its flag and reports the new state;
    toggling twice restores the flags; an unknown agent type gets a 404
    and no change. *)
Theorem toggle_agent_involutive (st : gmap string bool) t ts1 ts2 :
  (st !! t = None ->
     toggle_agent st t ts1 = (Raise (http_exc 404 ("Unknown agent type: " +++ t)), st)) /\
  (forall b, st !! t = Some b ->
     toggle_agent st t ts1 =
       (Ok (control_response (if negb b then "enabled" else "disabled") t ts1),
        <[t := negb b]> st) /\
     (toggle_agent (toggle_agent st t ts1).2 t ts2).2 = st).
Proof.
  split.
  - intros H. unfold toggle_agent. by rewrite H.
  - intros b Hb. unfold toggle_agent, set_agent_status. rewrite Hb. simpl. split; [done|].
    simplify_map_eq. rewrite insert_insert_eq, negb_involutive. by apply insert_id.
Qed.

Lemma toggle_agent_involutive_witness :
  (toggle_agent (toggle_agent default_agent_status "email" "t1").2 "email" "t2").2
  = default_agent_status.
Proof.
  apply (proj2 (toggle_agent_involutive default_agent_status "email" "t1" "t2") true).
  reflexivity.
Defined.

(** After [disable-all] every agent type is disabled, so dispatching any
    task returns the "currently disabled" failure and leaves the world
    untouched; after [enable-all] exactly the known agent types are
    enabled. *)
Theorem disable_all_rejects_every_task started classify (w : world) task tok now clock :
  (forall t, is_agent_enabled (disable_all_agents (agent_status w)) t = false) /\
  (let w' := {| agent_status := disable_all_agents (agent_status w); sessions := sessions w;
                llm_calls := llm_calls w; sessions_created := sessions_created w |} in
   invoke_claude_agent started classify task tok now clock w' =
     (failure_response task ("Agent '" +++ task_agent_type task +++ "' is currently disabled")
        ["Task rejected: agent disabled at " +++ clock], w')) /\
  (forall t, is_agent_enabled (enable_all_agents (agent_status w)) t =
             bool_decide (t ∈ dom (agent_status w))).
Proof.
  assert (Hd : forall t, is_agent_enabled (disable_all_agents (agent_status w)) t = false).
  { intros t. unfold is_agent_enabled, disable_all_agents. rewrite lookup_fmap.
    by destruct (agent_status w !! t). }
  split; [exact Hd|]. split.
  - simpl. unfold invoke_claude_agent. simpl. by rewrite Hd.
  - intros t. unfold is_agent_enabled, enable_all_agents. rewrite lookup_fmap.
    destruct (agent_status w !! t) eqn:Ht; simpl.
    + symmetry. apply bool_decide_eq_true. by eapply elem_of_dom_2.
    + symmetry. apply bool_decide_eq_false. by apply not_elem_of_dom.
Qed.

(** Loading the flags from Directus never adds or removes an agent type;
    when it reports [False] (request failure, no setting, malformed
    setting) the flags are unchanged.  Each known agent type named in the
    saved dict takes the truth value of its saved value; every other flag
    keeps its value. *)
Theorem load_agent_status_merge (st : gmap string bool) r :
  ((load_agent_status_from_directus st r).1 = false ->
     (load_agent_status_from_directus st r).2 = st) /\
  dom (load_agent_status_from_directus st r).2 = dom st /\
  (forall saved, NoDup (map fst saved) ->
     forall t, load_status_items st saved !! t =
       match st !! t, dict_get t saved with
       | Some _, Some v => Some (py_truthy v)
       | o, _ => o
       end).
Proof.
  split; [|split].
  - unfold load_agent_status_from_directus.
    destruct r as [[| | | | | |r]|]; try done.
    destruct (match dict_get "data" r with Some v => v | None => JList [] end)
      as [| | | | |[|[| | | | | |item] l]|]; try done.
    destruct (match dict_get "value" item with Some v => v | None => JObj [] end); done.
  - apply (control_step_dom st (CtlLoad r)).
  - intros saved Hnd. unfold load_status_items. revert st.
    induction saved as [|[k v] saved IH]; intros st t; simpl.
    + by destruct (st !! t).
    + simpl in Hnd. apply NoDup_cons in Hnd as [Hk Hnd].
      rewrite (IH Hnd). destruct (String.eqb_spec t k) as [->|Hne].
      * assert (Hn : dict_get k saved = None).
        { clear -Hk. induction saved as [|[k' v'] saved IH]; simpl in *; [done|].
          destruct (String.eqb_spec k k') as [->|]; [set_solver|]. apply IH. set_solver. }
        rewrite Hn. destruct (st !! k) eqn:Hs.
        -- by rewrite lookup_insert_eq.
        -- by rewrite Hs.
      * destruct (st !! k) eqn:Hs.
        -- rewrite lookup_insert_ne by congruence. done.
        -- done.
Qed.

Lemma load_agent_status_merge_witness :
  load_status_items default_agent_status [("finance", JInt 0); ("zzz", JBool true)] !! "finance"
  = Some false.
Proof.
  rewrite (proj2 (proj2 (load_agent_status_merge default_agent_status (Raise (mk_exc "E" "e"))))
             [("finance", JInt 0); ("zzz", JBool true)]).
  - reflexivity.
  - repeat constructor; simpl; set_solver.
Defined.

(* ------------------------------------------------------------------ *)
(** * Properties of prompt lookup and substitution *)

(** With no prompt from Directus (the fetch failed or returned none), a
    manual trigger is accepted exactly for the agent types with a fallback
    prompt ([email], [lead], [tracker]) and queues the task retyped to the
    requested agent type; any other type, including the department types
    the dispatcher serves, gets a 400.  A Directus prompt
    ["<type>_agent_system"] with truthy content makes any type
    acceptable. *)
Theorem manual_trigger_needs_prompt (t : string) task :
  (t ∈ ["email"; "lead"; "tracker"] ->
     exists resp, manual_trigger t task [] = Ok (resp, task_with_type task t)) /\
  (t ∉ ["email"; "lead"; "tracker"] ->
     manual_trigger t task [] = Raise (http_exc 400 ("No prompt found for agent type: " +++ t))) /\
  (forall pd d c,
     dict_get (t +++ "_agent_system") pd = Some (JObj d) ->
     dict_get "content" d = Some c -> py_truthy c = true ->
     exists resp, manual_trigger t task pd = Ok (resp, task_with_type task t)).
Proof.
  split; [|split].
  - intros Ht. unfold manual_trigger, get_agent_prompt. simpl.
    repeat (apply elem_of_cons in Ht as [->|Ht]; [simpl; eexists; reflexivity|]).
    exfalso. by apply not_elem_of_nil in Ht.
  - intros Ht. unfold manual_trigger, get_agent_prompt. simpl.
    destruct (String.eqb_spec t "email") as [->|H1]; [set_solver|].
    destruct (String.eqb_spec t "lead") as [->|H2]; [set_solver|].
    destruct (String.eqb_spec t "tracker") as [->|H3]; [set_solver|].
    reflexivity.
  - intros pd d c Hp Hc Htr. unfold manual_trigger, get_agent_prompt.
    rewrite Hp. simpl. unfold dict_getitem. rewrite Hc, Htr. simpl. eexists. reflexivity.
Qed.

Lemma manual_trigger_needs_prompt_witness :
  manual_trigger "finance" (mk_task "finance" "items.create" "invoices" "INV-1" []) [] =
    Raise (http_exc 400 ("No prompt found for agent type: " +++ "finance")).
Proof.
  apply (proj1 (proj2 (manual_trigger_needs_prompt "finance" _))).
  intros H. repeat (apply elem_of_cons in H as [H|H]; [discriminate|]).
  by apply not_elem_of_nil in H.
Defined.

Fixpoint all_word (s : string) : bool :=
  match s with
  | EmptyString => true
  | String c s' => is_word_char c && all_word s'
  end.

Lemma take_word_len s : String.length (take_word s).2 <= String.length s.
Proof.
  induction s as [|c s IH]; simpl; [lia|].
  destruct (is_word_char c); [destruct (take_word s) as [w r]; simpl in *; lia|simpl; lia].
Qed.

Lemma dot_groups_len f s : String.length (dot_groups f s).2 <= String.length s.
Proof.
  revert s. induction f as [|f IH]; intros s; simpl; [lia|].
  destruct s as [|c s]; simpl; [lia|].
  destruct (Ascii.eqb c "."); [|simpl; lia].
  pose proof (take_word_len s) as Hw. destruct (take_word s) as [w r]; simpl in *.
  destruct (String.eqb w EmptyString); [simpl; lia|].
  specialize (IH r). destruct (dot_groups f r) as [g r']; simpl in *. lia.
Qed.

Lemma match_placeholder_len s v rest :
  match_placeholder s = Some (v, rest) -> String.length rest < String.length s.
Proof.
  intros H. destruct s as [|c1 [|c2 s1]]; [discriminate| |].
  { destruct c1 as [[] [] [] [] [] [] [] []]; discriminate. }
  assert (c1 = "{"%char /\ c2 = "{"%char) as [-> ->].
  { destruct c1 as [[] [] [] [] [] [] [] []]; try discriminate;
    destruct c2 as [[] [] [] [] [] [] [] []]; try discriminate; done. }
  unfold match_placeholder in H.
  pose proof (take_word_len s1) as Hw. destruct (take_word s1) as [w s2]; simpl in *.
  destruct (String.eqb w EmptyString); [discriminate|].
  pose proof (dot_groups_len (String.length s2) s2) as Hg.
  destruct (dot_groups (String.length s2) s2) as [g s3]; simpl in *.
  destruct s3 as [|c3 [|c4 r]]; [discriminate| |].
  { destruct c3 as [[] [] [] [] [] [] [] []]; discriminate. }
  assert (c3 = "}"%char /\ c4 = "}"%char) as [-> ->].
  { destruct c3 as [[] [] [] [] [] [] [] []]; try discriminate;
    destruct c4 as [[] [] [] [] [] [] [] []]; try discriminate; done. }
  inversion H; subst. simpl in *. lia.
Qed.

Lemma substitute_go_fuel ctx f1 f2 s :
  String.length s < f1 -> String.length s < f2 ->
  substitute_go f1 ctx s = substitute_go f2 ctx s.
Proof.
  revert f2 s. induction f1 as [|f1 IH]; intros f2 s H1 H2; [lia|].
  destruct f2 as [|f2]; [lia|]. simpl. destruct s as [|c s]; [done|].
  destruct (match_placeholder (String c s)) as [[v rest]|] eqn:Hm.
  - apply match_placeholder_len in Hm. f_equal. apply IH; simpl in *; lia.
  - f_equal. apply IH; simpl in *; lia.
Qed.

Lemma match_placeholder_other c r :
  c <> "{"%char -> match_placeholder (String c r) = None.
Proof.
  intros Hc. destruct c as [[] [] [] [] [] [] [] []]; try reflexivity. by exfalso.
Qed.

Lemma substitute_variables_other ctx c r :
  c <> "{"%char -> substitute_variables (String c r) ctx = String c (substitute_variables r ctx).
Proof.
  intros Hc. unfold substitute_variables.
  change (substitute_go (S (String.length (String c r))) ctx (String c r)) with
    (match match_placeholder (String c r) with
     | Some (var_name, rest) =>
         replace_var ctx var_name +++ substitute_go (S (String.length r)) ctx rest
     | None => String c (substitute_go (S (String.length r)) ctx r)
     end).
  by rewrite match_placeholder_other.
Qed.

Lemma substitute_go_step f ctx c r :
  substitute_go (S f) ctx (String c r) =
  match match_placeholder (String c r) with
  | Some (var_name, rest) => replace_var ctx var_name +++ substitute_go f ctx rest
  | None => String c (substitute_go f ctx r)
  end.
Proof. reflexivity. Qed.

Lemma str_length_append s t :
  String.length (s +++ t) = String.length s + String.length t.
Proof.
  induction s as [|c s IH]; [done|].
  change (S (String.length (s +++ t)) = S (String.length s + String.length t)). by rewrite IH.
Qed.

Lemma append_empty_r s : s +++ EmptyString = s.
Proof. induction s as [|c s IH]; [done|]. change (String c (s +++ EmptyString) = String c s). by rewrite IH. Qed.

Lemma take_word_name n b :
  all_word n = true -> take_word (n +++ "}}" +++ b) = (n, "}}" +++ b).
Proof.
  induction n as [|c n IH]; simpl; [done|].
  intros H. apply andb_prop in H as [Hc Hn]. rewrite Hc, IH by done. done.
Qed.

Lemma dot_groups_close f b : dot_groups f ("}}" +++ b) = (EmptyString, "}}" +++ b).
Proof. destruct f; reflexivity. Qed.

Lemma match_placeholder_name n b :
  all_word n = true -> n <> EmptyString ->
  match_placeholder ("{{" +++ n +++ "}}" +++ b) = Some (n, b).
Proof.
  intros Hw Hne.
  change ("{{" +++ n +++ "}}" +++ b) with (String "{" (String "{" (n +++ "}}" +++ b))).
  cbv beta iota delta [match_placeholder]. rewrite take_word_name by done.
  destruct (String.eqb_spec n EmptyString) as [|_]; [done|].
  rewrite dot_groups_close. simpl. rewrite append_empty_r. reflexivity.
Qed.

Lemma index_dot_word n : all_word n = true -> String.index 0 "." n = None.
Proof.
  induction n as [|c n IH]; [done|].
  intros H. simpl in H. apply andb_prop in H as [Hc Hn].
  change (String.index 0 "." (String c n)) with
    (if String.prefix "." (String c n) then Some 0
     else match String.index 0 "." n with Some k => Some (S k) | None => None end).
  change (String.prefix "." (String c n)) with
    (if ascii_dec "." c then String.prefix EmptyString n else false).
  destruct (ascii_dec "." c) as [<-|_]; [discriminate|]. by rewrite IH.
Qed.

Lemma replace_var_name ctx n :
  all_word n = true ->
  replace_var ctx n = match dict_get n ctx with
                      | Some v => py_str v
                      | None => "{{MISSING:" +++ n +++ "}}"
                      end.
Proof.
  intros Hw. unfold replace_var, py_split. simpl. rewrite index_dot_word by done. simpl.
  by destruct (dict_get n ctx).
Qed.

Lemma substitute_variables_prefix (ctx : dict) a b :
  str_has "{" a = false -> substitute_variables (a +++ b) ctx = a +++ substitute_variables b ctx.
Proof.
  revert b. induction a as [|c a0 IH]; intros b0; [done|]. intros Ha.
  change (str_has "{" (String c a0)) with
    (if ascii_dec "{" c then true else str_has "{" a0) in Ha.
  destruct (ascii_dec "{" c) as [|Hc]; [discriminate|].
  change (String c a0 +++ b0) with (String c (a0 +++ b0)).
  rewrite substitute_variables_other by congruence.
  change (String c a0 +++ substitute_variables b0 ctx) with
    (String c (a0 +++ substitute_variables b0 ctx)).
  f_equal. apply IH, Ha.
Qed.


(* ------------------------------------------------------------------ *)
(** * Properties of the webhook and approval handlers *)

(** [process_webhook] queues an agent task exactly when the collection is
    one the service routes ([emails], [leads], [project_trackers],
    [tasks], [milestones]) and the item id it resolves is truthy; the task
    carries one of the agent types [email], [lead], [tracker], the event,
    the collection and [str(item_id)], and it is queued after the
    [received] activity record, which is the only other effect.  A
    payload whose key is missing or empty and whose first key is falsy
    (as [0]) is answered with the error status and has no effect. *)
Theorem process_webhook_queues (p : webhook_payload) :
  ((exists t, EffQueueTask t ∈ (process_webhook p).2) <->
     wp_collection p ∈ ["emails"; "leads"; "project_trackers"; "tasks"; "milestones"] /\
     py_truthy (webhook_item_id p) = true) /\
  (forall t, EffQueueTask t ∈ (process_webhook p).2 ->
     task_agent_type t ∈ ["email"; "lead"; "tracker"] /\
     task_trigger_event t = wp_event p /\ task_collection t = wp_collection p /\
     task_item_id t = py_str (webhook_item_id p) /\
     (process_webhook p).2 =
       [EffLog (task_agent_type t) (wp_event p) (wp_collection p)
          (JStr (py_str (webhook_item_id p))) "received" JNull JNull; EffQueueTask t]) /\
  (forall k ks,
     wp_collection p ∈ ["emails"; "leads"; "project_trackers"; "tasks"; "milestones"] ->
     (wp_key p = None \/ wp_key p = Some EmptyString) -> wp_keys p = Some (k :: ks) ->
     py_truthy k = false ->
     process_webhook p =
       (JObj [("status", JStr "error"); ("reason", JStr "No item ID in webhook payload")], [])).
Proof.
  assert (Hq : forall at0 (p : webhook_payload),
    webhook_agent_type (wp_collection p) = Some at0 ->
    at0 ∈ ["email"; "lead"; "tracker"] /\
    wp_collection p ∈ ["emails"; "leads"; "project_trackers"; "tasks"; "milestones"]).
  { intros at0 q. unfold webhook_agent_type.
    destruct (String.eqb_spec (wp_collection q) "emails") as [->|_].
    { intros [= <-]. set_solver. }
    destruct (String.eqb_spec (wp_collection q) "leads") as [->|_].
    { intros [= <-]. set_solver. }
    case_bool_decide as Ht; [|discriminate]. intros [= <-]. set_solver. }
  assert (Hn : webhook_agent_type (wp_collection p) = None ->
    wp_collection p ∉ ["emails"; "leads"; "project_trackers"; "tasks"; "milestones"]).
  { unfold webhook_agent_type.
    destruct (String.eqb_spec (wp_collection p) "emails"); [discriminate|].
    destruct (String.eqb_spec (wp_collection p) "leads"); [discriminate|].
    case_bool_decide as Ht; [discriminate|]. intros _. set_solver. }
  unfold process_webhook.
  destruct (webhook_agent_type (wp_collection p)) as [at0|] eqn:Ha.
  - destruct (Hq at0 p Ha) as [Hat Hc].
    destruct (py_truthy (webhook_item_id p)) eqn:Hi; simpl.
    + split; [|split].
      * split; [intros _; done|]. intros _. eexists. rewrite elem_of_cons. right. rewrite elem_of_cons. by left.
      * intros t Ht. apply elem_of_cons in Ht as [Ht|Ht]; [discriminate|].
        apply elem_of_cons in Ht as [Ht|Ht]; [|by apply not_elem_of_nil in Ht].
        injection Ht as ->. simpl. done.
      * intros k ks _ Hk Hks Hkf. exfalso. unfold webhook_item_id in Hi.
        rewrite Hks in Hi. destruct Hk as [Hk|Hk]; rewrite Hk in Hi; simpl in Hi; congruence.
    + split; [|split].
      * split; [intros [t Ht]; by apply not_elem_of_nil in Ht|]. intros [_ ?]; discriminate.
      * intros t Ht. by apply not_elem_of_nil in Ht.
      * done.
  - simpl. split; [|split].
    + split; [intros [t Ht]; by apply not_elem_of_nil in Ht|]. intros [Hc _]. exfalso. exact (Hn eq_refl Hc).
    + intros t Ht. by apply not_elem_of_nil in Ht.
    + intros k ks Hc. exfalso. exact (Hn eq_refl Hc).
Qed.

Lemma process_webhook_queues_witness :
  process_webhook (mk_webhook_payload "items.create" "tasks" (Some EmptyString)
                     (Some [JInt 0; JInt 5]) None) =
    (JObj [("status", JStr "error"); ("reason", JStr "No item ID in webhook payload")], []).
Proof.
  apply (proj2 (proj2 (process_webhook_queues
           (mk_webhook_payload "items.create" "tasks" (Some EmptyString)
              (Some [JInt 0; JInt 5]) None))) (JInt 0) [JInt 5]).
  - simpl. set_solver.
  - by right.
  - reflexivity.
  - reflexivity.
Defined.

(** [handle_approval] queues [send_approved_email] exactly when the
    context's [type] is ["email_draft"] and the response, lower-cased, is
    ["approve"] (so ["APPROVE"] and ["Approve"] count); the queued send
    carries the prompt id and the context, and a response has at most one
    effect. *)
Theorem handle_approval_sends (p : approval_payload) :
  let ctx := match ap_context p with Some d => d | None => [] end in
  ((exists pid c, EffQueueSend pid c ∈ (handle_approval p).2) <->
     dict_get "type" ctx = Some (JStr "email_draft") /\ py_lower (ap_response p) = "approve") /\
  (forall pid c, EffQueueSend pid c ∈ (handle_approval p).2 -> pid = ap_prompt_id p /\ c = ctx) /\
  length (handle_approval p).2 <= 1.
Proof.
  intros ctx. unfold handle_approval. fold ctx.
  assert (Hnil : forall pid c, EffQueueSend pid c ∉ @nil effect).
  { intros pid c H. by apply not_elem_of_nil in H. }
  destruct (dict_get "type" ctx) as [v|] eqn:Ht.
  2:{ simpl. split; [|split; [|lia]].
      - split; [intros (pid & c & H); by apply Hnil in H|]. intros [[=] _].
      - intros pid c H. by apply Hnil in H. }
  assert (Hother : (match v with JStr s => String.eqb s "email_draft" | _ => false end) = false ->
                   v <> JStr "email_draft").
  { intros Hv ->. discriminate. }
  destruct (match v with JStr s => String.eqb s "email_draft" | _ => false end) eqn:Hv.
  - assert (v = JStr "email_draft") as ->.
    { destruct v; try discriminate. by apply String.eqb_eq in Hv as ->. }
    destruct (String.eqb_spec (py_lower (ap_response p)) "approve") as [Hr|Hr].
    + simpl. split; [|split; [|lia]].
      * split; [intros _; done|]. intros _. do 2 eexists. by apply list_elem_of_singleton.
      * intros pid c H. apply list_elem_of_singleton in H. by injection H as -> ->.
    + destruct (String.eqb_spec (py_lower (ap_response p)) "reject"); simpl.
      * split; [|split; [|lia]].
        -- split; [|intros [_ ?]; done]. intros (pid & c & H).
           apply list_elem_of_singleton in H. discriminate.
        -- intros pid c H. apply list_elem_of_singleton in H. discriminate.
      * split; [|split; [|lia]].
        -- split; [intros (pid & c & H); by apply Hnil in H|]. by intros [_ ?].
        -- intros pid c H. by apply Hnil in H.
  - simpl. specialize (Hother eq_refl). split; [|split; [|lia]].
    + split; [intros (pid & c & H); by apply Hnil in H|]. intros [[= ->] _]. done.
    + intros pid c H. by apply Hnil in H.
Qed.

Lemma handle_approval_sends_witness :
  exists pid c,
    EffQueueSend pid c ∈
      (handle_approval (mk_approval_payload "p-7" "APPROVE"
                          (Some [("type", JStr "email_draft")]))).2.
Proof.
  apply (proj2 (proj1 (handle_approval_sends
           (mk_approval_payload "p-7" "APPROVE" (Some [("type", JStr "email_draft")]))))).
  split; reflexivity.
Defined.

Ltac elem_cases H :=
  repeat (apply elem_of_cons in H as [H|H]);
  try (apply not_elem_of_nil in H; contradiction); try discriminate.

(** Approving an email draft never sends it: the send that
    [handle_approval] queues runs [send_approved_email] on the prompt id
    and the context, and that writes one [email_send_error] record for the
    prompt and nothing else, with ["Missing required email context"] when
    one of [email_id], [draft_subject], [draft_body], [original_from] is
    missing or falsy, and otherwise the NameError of the unbound
    [gmail_send_email]. *)
Theorem approved_email_never_sent (p : approval_payload) pid c :
  EffQueueSend pid c ∈ (handle_approval p).2 ->
  let ctx := match ap_context p with Some d => d | None => [] end in
  let g k := match dict_get k ctx with Some v => v | None => JNull end in
  send_approved_email pid c =
    [EffLog "email" "email_send_error" "human_prompts" (JStr (ap_prompt_id p)) "failed" JNull
       (JStr (if forallb py_truthy [g "email_id"; g "draft_subject"; g "draft_body";
                                    g "original_from"]
              then "name 'gmail_send_email' is not defined"
              else "Missing required email context"))].
Proof.
  intros H ctx g. unfold handle_approval in H. fold ctx in H.
  destruct (match (match dict_get "type" ctx with Some v => v | None => JStr "unknown" end) with
            | JStr s => String.eqb s "email_draft" | _ => false end);
    [|simpl in H; by apply not_elem_of_nil in H].
  destruct (String.eqb (py_lower (ap_response p)) "approve").
  2:{ destruct (String.eqb (py_lower (ap_response p)) "reject"); simpl in H.
      - apply list_elem_of_singleton in H. discriminate.
      - by apply not_elem_of_nil in H. }
  simpl in H. apply list_elem_of_singleton in H. injection H as -> ->.
  unfold send_approved_email. fold g.
  by destruct (forallb py_truthy _).
Qed.

Lemma approved_email_never_sent_witness :
  send_approved_email "p-7"
    [("type", JStr "email_draft"); ("email_id", JStr "e-1"); ("draft_subject", JStr "Re: quote");
     ("draft_body", JStr "Thanks"); ("original_from", JStr "ann@example.com")] =
  [EffLog "email" "email_send_error" "human_prompts" (JStr "p-7") "failed" JNull
     (JStr "name 'gmail_send_email' is not defined")].
Proof.
  apply (approved_email_never_sent
           (mk_approval_payload "p-7" "Approve"
              (Some [("type", JStr "email_draft"); ("email_id", JStr "e-1");
                     ("draft_subject", JStr "Re: quote"); ("draft_body", JStr "Thanks");
                     ("original_from", JStr "ann@example.com")]))).
  vm_compute. apply list_elem_of_singleton. reflexivity.
Defined.

(** * Properties of the hook and session endpoints *)

(** [POST /hook/validate] answers with the decision of [validate_access]
    and keeps the registry it leaves (the bumped violation count), and it
    queues one violation log, with the denial reason, exactly when the call
    is denied; a call from a session that is not registered is denied and
    logged, and leaves the registry as it was. *)
Theorem validate_hook_logs_denials (reg : registry) sid tn ti r reg' effs :
  validate_hook reg sid tn ti = (r, reg', effs) ->
  (r, reg') = validate_access reg sid tn ti /\
  (forall e, e ∈ effs <->
     exists reason, r = Ok (false, reason) /\ e = EffQueueViolationLog sid tn ti reason) /\
  length effs <= 1 /\
  (reg !! sid = None ->
     r = Ok (false, unknown_session_reason) /\ reg' = reg /\
     effs = [EffQueueViolationLog sid tn ti unknown_session_reason]).
Proof.
  unfold validate_hook. destruct (validate_access reg sid tn ti) as [r0 reg0] eqn:Hv.
  assert (Hnil : forall e, e ∉ @nil effect) by (intros e H; by apply not_elem_of_nil in H).
  destruct r0 as [[allowed reason]|ex]; intros [= <- <- <-];
    (split; [done|]); [destruct allowed|]; (split; [|split; [simpl; lia|]]).
  - intros e. split; [intros H; by apply Hnil in H|]. intros (reason' & [=] & _).
  - intros Hs. rewrite validate_access_unknown in Hv by done. by injection Hv as [=].
  - intros e. rewrite list_elem_of_singleton. split.
    + intros ->. by exists reason.
    + by intros (reason' & [= <-] & ->).
  - intros Hs. rewrite validate_access_unknown in Hv by done. by injection Hv as <- <-.
  - intros e. split; [intros H; by apply Hnil in H|]. intros (reason' & [=] & _).
  - intros Hs. rewrite validate_access_unknown in Hv by done. discriminate.
Qed.

Lemma validate_hook_logs_denials_witness :
  Ok (false, unknown_session_reason) = Ok (false, unknown_session_reason) /\
  (∅ : registry) = ∅ /\
  [EffQueueViolationLog "s-9" "Read" [] unknown_session_reason] =
    [EffQueueViolationLog "s-9" "Read" [] unknown_session_reason].
Proof.
  refine (proj2 (proj2 (proj2 (validate_hook_logs_denials ∅ "s-9" "Read" []
            (Ok (false, unknown_session_reason)) ∅
            [EffQueueViolationLog "s-9" "Read" [] unknown_session_reason] _))) _);
    vm_compute; reflexivity.
Defined.

(** [POST /sessions/{id}/end] refuses an id that is not registered with a
    404 and no change; for a registered session it returns the summary of
    [end_session] (duration from the creation time, the violation count,
    the primary id) and removes the session, so ending it again is a 404. *)
Theorem force_end_session_once (reg : registry) sid now :
  (reg !! sid = None ->
     force_end_session reg sid now = (Raise (http_exc 404 "Session not found"), reg)) /\
  (forall s, reg !! sid = Some s ->
     force_end_session reg sid now =
       (Ok (EndSummary {| sum_session_id := sid; sum_agent_type := agent_type s;
                          sum_duration_seconds := now - created_at s;
                          sum_violation_count := violation_count s;
                          sum_primary_uuid := primary_uuid s |}), delete sid reg) /\
     forall now', force_end_session (delete sid reg) sid now' =
                  (Raise (http_exc 404 "Session not found"), delete sid reg)).
Proof.
  split.
  - intros Hs. unfold force_end_session. by rewrite Hs.
  - intros s Hs. split.
    + unfold force_end_session, end_session. by rewrite Hs.
    + intros now'. unfold force_end_session. by rewrite lookup_delete_eq.
Qed.

Lemma force_end_session_once_witness :
  force_end_session ∅ "s-1" 5 = (Raise (http_exc 404 "Session not found"), ∅).
Proof. apply (proj1 (force_end_session_once ∅ "s-1" 5)). reflexivity. Defined.

(** * Properties of task dispatch *)

(** [run_agent_task] writes the [processing] record and then a [failed]
    record carrying the error, never a [completed] one: no path of
    [invoke_claude_agent] succeeds.  A disabled agent leaves the world as
    it was; otherwise the session opened for the task is ended before the
    response, so the registry loses only that token's entry (and is back
    to what it was when the token was fresh). *)
Theorem run_agent_task_fails_cleanly started classify task tok now clock (w : world) effs w' :
  (forall ev w0, sessions (classify ev w0).1 = sessions w0) ->
  run_agent_task started classify task tok now clock w = (effs, w') ->
  let log status result error :=
    EffLog (task_agent_type task) (task_trigger_event task) (task_collection task)
      (JStr (task_item_id task)) status result error in
  (exists err, effs = [log "processing" JNull JNull; log "failed" JNull (JStr err)]) /\
  (is_agent_enabled (agent_status w) (task_agent_type task) = false -> w' = w) /\
  (is_agent_enabled (agent_status w) (task_agent_type task) = true ->
     sessions w' = delete tok (sessions w) /\
     (sessions w !! tok = None -> sessions w' = sessions w)).
Proof.
  intros Hc Hrun log.
  assert (Hdel : forall s, sessions w' = delete tok (<[tok := s]> (sessions w)) ->
            sessions w' = delete tok (sessions w) /\
            (sessions w !! tok = None -> sessions w' = sessions w)).
  { intros s ->. rewrite delete_insert_eq. split; [done|]. intros Hf. by apply delete_id. }
  unfold run_agent_task, invoke_claude_agent in Hrun.
  destruct (is_agent_enabled (agent_status w) (task_agent_type task)) eqn:He; simpl in Hrun.
  - unfold create_session in Hrun.
    destruct started; [destruct (get_agent_for_type (task_agent_type task)) as [a|]|];
      simpl in Hrun.
    + unfold end_session in Hrun. simpl in Hrun. rewrite lookup_insert_eq in Hrun.
      injection Hrun as <- <-. split; [by eexists|]. split; [discriminate|].
      intros _. by eapply Hdel.
    + unfold end_session in Hrun.
      match type of Hrun with
      | context [classify ?ev ?w1] =>
          pose proof (Hc ev w1) as Hcw; destruct (classify ev w1) as [[st2 reg2 n2 c2] ex];
          simpl in Hcw; subst reg2
      end.
      simpl in Hrun. rewrite lookup_insert_eq in Hrun.
      injection Hrun as <- <-. split; [by eexists|]. split; [discriminate|].
      intros _. by eapply Hdel.
    + unfold end_session in Hrun. simpl in Hrun. rewrite lookup_insert_eq in Hrun.
      injection Hrun as <- <-. split; [by eexists|]. split; [discriminate|].
      intros _. by eapply Hdel.
  - injection Hrun as <- <-. split; [by eexists|]. split; [done|]. discriminate.
Qed.

Lemma run_agent_task_fails_cleanly_witness :
  let w0 := mk_world default_agent_status ∅ 0 [] in
  let tk := mk_task "email" "items.create" "emails" "42" [] in
  sessions (run_agent_task true (fun _ w => (w, None)) tk "tok-1" 10 "10:00:00" w0).2 = ∅.
Proof.
  intros w0 tk.
  refine (proj2 (proj2 (proj2 (run_agent_task_fails_cleanly true (fun _ w => (w, None)) tk "tok-1" 10
            "10:00:00" w0 (run_agent_task true (fun _ w => (w, None)) tk "tok-1" 10 "10:00:00" w0).1
            (run_agent_task true (fun _ w => (w, None)) tk "tok-1" 10 "10:00:00" w0).2 _ _)) _) _).
  - intros ev w1. reflexivity.
  - by destruct (run_agent_task true (fun _ w => (w, None)) tk "tok-1" 10 "10:00:00" w0).
  - vm_compute. reflexivity.
  - vm_compute. reflexivity.
Defined.

(** * Properties of the orchestrator's workflow loop *)

Lemma workflow_go_shape f total steps : forall i context results rs,
  workflow_go f total i steps context results = Ok rs ->
  exists new, rs = (results ++ new)%list /\ length new <= length steps /\
    (steps <> [] -> new <> []) /\
    (forall j r, new !! j = Some r -> S j < length new ->
       exists st, steps !! j = Some st /\ workflow_continues st r = true) /\
    (length new < length steps ->
       exists st r, steps !! (length new - 1) = Some st /\ last new = Some r /\
                    workflow_continues st r = false).
Proof.
  induction steps as [|step rest IH]; intros i context results rs Hw; simpl in Hw.
  - injection Hw as <-. exists []. rewrite app_nil_r. repeat split; simpl; try lia; done.
  - destruct (match dict_get "context" step with Some v => v | None => JObj [] end) as
      [| | | | | |sc]; try discriminate.
    destruct (f _) as [r|e]; [|discriminate].
    destruct (workflow_continues step r) eqn:Hc.
    + apply IH in Hw as (new' & -> & Hlen & Hne & Hpre & Hlast).
      exists (r :: new'). split; [by rewrite <- app_assoc|]. split; [simpl; lia|].
      split; [done|]. split.
      * intros [|j] r' Hj Hlt; simpl in Hj.
        -- injection Hj as <-. by exists step.
        -- apply Hpre; [done|simpl in Hlt; lia].
      * intros Hlt. simpl in Hlt.
        assert (rest <> []) as Hr by (intros ->; simpl in Hlt; lia).
        destruct new' as [|r2 new'']; [by destruct (Hne Hr)|].
        destruct (Hlast ltac:(lia)) as (st & r3 & Hst & Hl & Hf).
        exists st, r3. split; [|split; [done|done]].
        simpl. replace (length new'' - 0) with (length new'') by lia.
        simpl in Hst. by replace (length new'' - 0) with (length new'') in Hst by lia.
    + injection Hw as <-. exists [r]. split; [done|]. split; [simpl; lia|].
      split; [done|]. split.
      * intros j r' _ Hlt. simpl in Hlt. lia.
      * intros _. by exists step, r.
Qed.

(** [execute_workflow] runs the steps in order and returns one result per
    step it ran, at least one when there are steps: every step before the
    last one run gave a result after which the loop goes on (a success,
    or a failure with a falsy [stop_on_failure], and no pending
    approval), and when it stops before the end, the last step run gave a
    result that stops it (a failure with [stop_on_failure] missing or
    truthy, or a pending approval). *)
Theorem execute_workflow_stops f steps rs :
  execute_workflow f steps = Ok rs ->
  length rs <= length steps /\ (steps <> [] -> rs <> []) /\
  (forall j r, rs !! j = Some r -> S j < length rs ->
     exists st, steps !! j = Some st /\ workflow_continues st r = true) /\
  (length rs < length steps ->
     exists st r, steps !! (length rs - 1) = Some st /\ last rs = Some r /\
                  workflow_continues st r = false).
Proof.
  unfold execute_workflow. intros Hw.
  by destruct (workflow_go_shape f _ steps 0 [] [] rs Hw) as (new & -> & H).
Qed.

Lemma execute_workflow_stops_witness :
  let fr := mk_agent_result false "Orchestrator" "orchestrator_1" "claude_api_invocation" None
              (Some "Timeout after 120 seconds") false None None in
  exists st r, [@nil (string * json); []] !! (length [fr] - 1) = Some st /\ last [fr] = Some r /\
               workflow_continues st r = false.
Proof.
  intros fr.
  refine (proj2 (proj2 (proj2 (execute_workflow_stops (fun _ => Ok fr) [[]; []] [fr] _))) _).
  - reflexivity.
  - simpl. lia.
Defined.

(** * Properties of the base agent and the orchestrator's routing *)

Ltac destruct_call :=
  match goal with
  | |- context [match (if ?b then ?x else ?y) with pair _ _ => _ end] =>
      destruct (if b then x else y) as [[? ?] ?]
  end.

(** [BaseAgent.execute] never asks for approval and never sets an
    approval id, and it passes on the agent name and the task id.  It
    calls the tool loop when tools are enabled and the agent defines some,
    and the single-call API otherwise; from the [(success, output,
    tokens)] of the call it makes, a success carries [output] as
    [result_data["output"]] and no error, a failure carries [output] as
    [error] and no [result_data], and [tokens] is [tokens_used].  The
    function it does not call has no influence on the result. *)
Theorem base_execute_shape invoke_with_tools_fn invoke_claude_fn agent_name enable_tools tools
    build_task_prompt task_id context :
  let r := base_execute invoke_with_tools_fn invoke_claude_fn agent_name enable_tools tools
             build_task_prompt task_id context in
  let fields (success : bool) (output : string) (tokens : json) :=
    ar_success r = success /\
    ar_result_data r = (if success then Some [("output", JStr output)] else None) /\
    ar_error r = (if success then None else Some output) /\
    ar_tokens_used r = Some tokens in
  ar_requires_approval r = false /\ ar_approval_item_id r = None /\
  ar_agent_name r = agent_name /\ ar_task_id r = task_id /\
  ar_action_taken r = "claude_api_invocation" /\
  (enable_tools = true -> tools <> [] ->
     forall success output tokens,
       invoke_with_tools_fn (build_task_prompt context) = (success, output, tokens) ->
       fields success output tokens) /\
  (enable_tools = false \/ tools = [] ->
     forall success output tokens,
       invoke_claude_fn (build_task_prompt context) = (success, output, tokens) ->
       fields success output tokens) /\
  (forall f, enable_tools = false \/ tools = [] ->
     r = base_execute f invoke_claude_fn agent_name enable_tools tools build_task_prompt
           task_id context) /\
  (forall f, enable_tools = true -> tools <> [] ->
     r = base_execute invoke_with_tools_fn f agent_name enable_tools tools build_task_prompt
           task_id context).
Proof.
  intros r fields. subst r fields. unfold base_execute. cbv zeta.
  assert (Hon : enable_tools = true -> tools <> [] ->
                (enable_tools && negb (length tools =? 0)%nat) = true).
  { intros -> Ht. destruct tools; [done|]. done. }
  assert (Hoff : enable_tools = false \/ tools = [] ->
                 (enable_tools && negb (length tools =? 0)%nat) = false).
  { intros [-> | ->]; [done|]. by rewrite andb_false_r. }
  split; [|split; [|split; [|split; [|split; [|split; [|split; [|split]]]]]]].
  - by destruct_call.
  - by destruct_call.
  - by destruct_call.
  - by destruct_call.
  - by destruct_call.
  - intros He Ht success output tokens Hc. rewrite (Hon He Ht), Hc. simpl.
    by destruct success.
  - intros Ho success output tokens Hc. rewrite (Hoff Ho), Hc. simpl.
    by destruct success.
  - intros f Ho. by rewrite (Hoff Ho).
  - intros f He Ht. by rewrite (Hon He Ht).
Qed.

Lemma base_execute_shape_witness :
  ar_error (base_execute (fun p => (true, "tools: " +++ p, JObj []))
              (fun p => (false, "Timeout after 120 seconds", JObj []))
              "Orchestrator" false [JObj []] (fun _ => "classify") "t-1" []) =
    Some "Timeout after 120 seconds".
Proof.
  apply (proj1 (proj2 (proj2 (proj1 (proj2 (proj2 (proj2 (proj2 (proj2 (proj2 (base_execute_shape
           (fun p => (true, "tools: " +++ p, JObj []))
           (fun p => (false, "Timeout after 120 seconds", JObj []))
           "Orchestrator" false [JObj []] (fun _ => "classify") "t-1" [])))))))
           (or_introl eq_refl) false "Timeout after 120 seconds" (JObj []) eq_refl)))).
Defined.

(** [_route_to_department] raises the [ValueError] of [Department(...)]
    for a value that is not a department (it is not caught there); for a
    department with no registered agent it answers the failure dict
    listing the registered departments, without running any agent; for a
    registered one it always answers a dict with the agent's name, the
    task id ["<department>_<stamp>"] passed to the agent, and the agent's
    success, which is false when the agent raised. *)
Theorem route_to_department_cases registered dept_agent_name dept_execute stamp department
    context priority :
  let res := route_to_department registered dept_agent_name dept_execute stamp department
               context priority in
  (match department with JStr s => s ∉ department_values | _ => True end ->
     exists msg, res = Raise (mk_exc "ValueError" msg)) /\
  (forall s, department = JStr s -> s ∈ department_values -> s ∉ registered ->
     res = Ok (JObj [("success", JBool false);
                     ("error", JStr ("No agent registered for " +++ s));
                     ("available_departments", JList (map JStr registered))])) /\
  (forall s, department = JStr s -> s ∈ department_values -> s ∈ registered ->
     exists d, res = Ok (JObj d) /\
       dict_get "agent" d = Some (JStr (dept_agent_name s)) /\
       dict_get "task_id" d = Some (JStr (s +++ "_" +++ stamp)) /\
       dict_get "success" d =
         Some (JBool (match dept_execute s (s +++ "_" +++ stamp) context with
                      | Ok r => ar_success r
                      | Raise _ => false
                      end))).
Proof.
  intros res. subst res. unfold route_to_department, department_of.
  split; [|split].
  - destruct department; intros Hd; try (eexists; reflexivity).
    case_bool_decide; [done|]. eexists; reflexivity.
  - intros s -> Hs Hr. rewrite bool_decide_eq_true_2 by done.
    rewrite bool_decide_eq_false_2 by done. reflexivity.
  - intros s -> Hs Hr. rewrite bool_decide_eq_true_2 by done.
    rewrite bool_decide_eq_true_2 by done. simpl.
    destruct (dept_execute s (s +++ "_" +++ stamp) context); eexists; (split; [reflexivity|]);
      repeat split.
Qed.

Lemma route_to_department_cases_witness :
  route_to_department [] (fun _ => "FinanceAgent") (fun _ _ _ => Raise (mk_exc "RuntimeError" "x"))
    "20260101_000000" (JStr "finance") (JObj []) (JStr "medium") =
  Ok (JObj [("success", JBool false); ("error", JStr ("No agent registered for " +++ "finance"));
            ("available_departments", JList (map JStr []))]).
Proof.
  apply (proj1 (proj2 (route_to_department_cases [] (fun _ => "FinanceAgent")
           (fun _ _ _ => Raise (mk_exc "RuntimeError" "x")) "20260101_000000" (JStr "finance")
           (JObj []) (JStr "medium"))) "finance" eq_refl).
  - unfold department_values. set_solver.
  - set_solver.
Defined.

(** [classify_and_route] routes the event only when the parsed
    classification is an object whose [department] is a registered
    department and whose [requires_human_approval] is falsy, and then
    with that department, the event itself and the classification's
    [priority] (["medium"] by default).  An exception escapes it only when
    the parsed JSON is not an object, or when it has no [department] key
    while ["unknown"] is registered (the [classification["department"]]
    lookup). *)
Theorem classify_and_route_routing department_agents route event output :
  (forall r d v,
     classify_and_route department_agents route event (true, output) = Ok r ->
     rr_data r = Some d -> rd_routing d = Some v ->
     exists c dept,
       rd_classification d = Some (JObj c) /\ dict_get "department" c = Some (JStr dept) /\
       dept ∈ department_agents /\
       py_truthy (match dict_get "requires_human_approval" c with Some x => x | None => JNull end)
         = false /\
       v = route (JStr dept) event
             (match dict_get "priority" c with Some x => x | None => JStr "medium" end)) /\
  (forall e,
     classify_and_route department_agents route event (true, output) = Raise e ->
     exists t cl, extract_json_str output = Ok t /\ json_loads t = Ok cl /\
       ((forall c, cl <> JObj c) \/
        exists c, cl = JObj c /\ dict_get "department" c = None /\
                  "unknown" ∈ department_agents)).
Proof.
  unfold classify_and_route.
  destruct (extract_json_str output) as [t|e0] eqn:Ht.
  2:{ split; [intros r d v [= <-] [= <-]; discriminate|intros e; discriminate]. }
  destruct (json_loads t) as [cl|e0] eqn:Hl.
  2:{ split; [intros r d v [= <-] [= <-]; discriminate|intros e; discriminate]. }
  destruct cl as [| | | | | |c];
    try (split; [discriminate|intros e _; exists t; eexists; split; [done|split; [done|]];
                 left; intros c' [=]]).
  destruct (dict_get "department" c) as [dv|] eqn:Hd.
  - destruct (department_of dv) as [dept|e0] eqn:Hdep.
    2:{ split; [intros r d v [= <-] [= <-]; discriminate|intros e; discriminate]. }
    unfold dict_getitem. rewrite Hd.
    assert (dv = JStr dept) as ->.
    { unfold department_of in Hdep. destruct dv; try discriminate.
      case_bool_decide; [by injection Hdep as ->|discriminate]. }
    destruct (bool_decide (dept ∈ department_agents)) eqn:Hb; simpl.
    + destruct (py_truthy _) eqn:Hh; simpl.
      * split; [intros r d v [= <-] [= <-]; discriminate|intros e; discriminate].
      * split; [|intros e; discriminate].
        intros r d v [= <-] [= <-] [= <-]. exists c, dept.
        repeat split; try done. by apply bool_decide_eq_true_1 in Hb.
    + split; [intros r d v [= <-] [= <-]; discriminate|intros e; discriminate].
  - unfold dict_getitem. rewrite Hd. simpl.
    destruct (bool_decide ("unknown" ∈ department_agents)) eqn:Hb; simpl.
    + destruct (py_truthy _) eqn:Hh; simpl.
      * split; [intros r d v [= <-] [= <-]; discriminate|intros e; discriminate].
      * split; [intros r d v; discriminate|]. intros e _. exists t, (JObj c).
        split; [done|split; [done|]]. right. exists c. split; [done|split; [done|]].
        by apply bool_decide_eq_true_1 in Hb.
    + split; [intros r d v [= <-] [= <-]; discriminate|intros e; discriminate].
Qed.

Lemma classify_and_route_routing_witness :
  exists t cl, extract_json_str "{}" = Ok t /\ json_loads t = Ok cl /\
    ((forall c, cl <> JObj c) \/
     exists c, cl = JObj c /\ dict_get "department" c = None /\ "unknown" ∈ ["unknown"]).
Proof.
  apply (proj2 (classify_and_route_routing ["unknown"] (fun _ _ _ => JNull) [] "{}")
           (key_error "department")).
  vm_compute. reflexivity.
Defined.

(** * Nested placeholders of [substitute_variables] *)

Lemma append_cons c s t : String c s +++ t = String c (s +++ t).
Proof. reflexivity. Qed.

Lemma append_nil_l t : EmptyString +++ t = t.
Proof. reflexivity. Qed.

Lemma take_word_stop n c r :
  all_word n = true -> is_word_char c = false -> take_word (n +++ String c r) = (n, String c r).
Proof.
  intros Hw Hc. induction n as [|c' n IH].
  - rewrite append_nil_l. simpl. by rewrite Hc.
  - simpl in Hw. apply andb_prop in Hw as [Hc' Hn].
    rewrite append_cons. simpl. rewrite Hc', IH by done. done.
Qed.

Lemma index_dot_after n r : all_word n = true -> String.index 0%nat "." (n +++ "." +++ r) = Some (String.length n).
Proof.
  induction n as [|c n IH]; intros Hw.
  { change (String.index 0%nat "." (String "." r) = Some 0%nat).
    change (String.index 0%nat "." (String "." r)) with
      (if String.prefix "." (String "." r) then Some 0%nat
       else match String.index 0%nat "." r with Some k => Some (S k) | None => None end).
    change (String.prefix "." (String "." r)) with
      (if ascii_dec "." "." then String.prefix EmptyString r else false).
    replace (String.prefix EmptyString r) with true by (destruct r; vm_compute; reflexivity).
    destruct (ascii_dec "." "."); [reflexivity|congruence]. }
  simpl in Hw. apply andb_prop in Hw as [Hc Hn].
  rewrite append_cons.
  change (String.index 0%nat "." (String c (n +++ "." +++ r))) with
    (if String.prefix "." (String c (n +++ "." +++ r)) then Some 0%nat
     else match String.index 0%nat "." (n +++ "." +++ r) with Some k => Some (S k) | None => None end).
  change (String.prefix "." (String c (n +++ "." +++ r))) with
    (if ascii_dec "." c then String.prefix EmptyString (n +++ "." +++ r) else false).
  destruct (ascii_dec "." c) as [<-|_]; [discriminate|]. by rewrite IH.
Qed.

Lemma substring_prefix x y : substring 0 (String.length x) (x +++ y) = x.
Proof.
  induction x as [|c x IH]; [by destruct y|].
  rewrite append_cons. simpl. by rewrite IH.
Qed.

Lemma substring_skip x y m : substring (String.length x) m (x +++ y) = substring 0 m y.
Proof. induction x as [|c x IH]; [reflexivity|]. rewrite append_cons. simpl. apply IH. Qed.

Lemma substring_all y m : String.length y <= m -> substring 0 m y = y.
Proof.
  revert m. induction y as [|c y IH]; intros m Hm.
  - by destruct m.
  - destruct m as [|m]; simpl in Hm; [lia|]. simpl. rewrite IH by lia. done.
Qed.

Lemma str_append_assoc x y z : x +++ (y +++ z) = (x +++ y) +++ z.
Proof. induction x as [|c x IH]; [reflexivity|]. rewrite !append_cons. by rewrite IH. Qed.

Lemma py_split_two n1 n2 :
  all_word n1 = true -> all_word n2 = true -> py_split (n1 +++ "." +++ n2) "." = [n1; n2].
Proof.
  intros H1 H2. unfold py_split. simpl. rewrite index_dot_after by done.
  rewrite substring_prefix. f_equal.
  rewrite str_length_append.
  replace (String.length n1 + 1)%nat with (String.length (n1 +++ "."))
    by (rewrite str_length_append; reflexivity).
  pose proof (str_append_assoc n1 "." n2) as Ha.
  rewrite Ha, substring_skip, substring_all.
  2:{ change (String.length ("." +++ n2)) with (S (String.length n2)). lia. }
  change (String.length ("." +++ n2)) with (S (String.length n2)).
  replace (String.length n1 + S (String.length n2))%nat
    with (S (String.length n1 + String.length n2)) by lia.
  simpl. by rewrite index_dot_word.
Qed.

Lemma dot_groups_dot f w r :
  all_word w = true -> w <> EmptyString ->
  dot_groups (S f) (String "." (w +++ "}}" +++ r)) = ("." +++ w, "}}" +++ r).
Proof.
  intros Hw Hne.
  change (dot_groups (S f) (String "." (w +++ "}}" +++ r))) with
    (let '(w0, r0) := take_word (w +++ "}}" +++ r) in
     if String.eqb w0 EmptyString then (EmptyString, String "." (w +++ "}}" +++ r))
     else let '(g, r') := dot_groups f r0 in ("." +++ w0 +++ g, r')).
  rewrite take_word_name by done.
  destruct (String.eqb_spec w EmptyString) as [|_]; [done|].
  rewrite dot_groups_close. by rewrite append_empty_r.
Qed.

Lemma match_placeholder_dotted n1 n2 b :
  all_word n1 = true -> all_word n2 = true -> n1 <> EmptyString -> n2 <> EmptyString ->
  match_placeholder ("{{" +++ n1 +++ "." +++ n2 +++ "}}" +++ b) = Some (n1 +++ "." +++ n2, b).
Proof.
  intros H1 H2 Hn1 Hn2.
  change ("{{" +++ n1 +++ "." +++ n2 +++ "}}" +++ b) with
    (String "{" (String "{" (n1 +++ String "." (n2 +++ "}}" +++ b)))).
  cbv beta iota delta [match_placeholder].
  rewrite take_word_stop by done.
  destruct (String.eqb_spec n1 EmptyString) as [|_]; [done|].
  change (String.length (String "." (n2 +++ "}}" +++ b)))
    with (S (String.length (n2 +++ "}}" +++ b))).
  rewrite dot_groups_dot by done. reflexivity.
Qed.

Lemma take_word_app c x y :
  is_word_char c = false ->
  take_word (x +++ String c y) = ((take_word x).1, (take_word x).2 +++ String c y).
Proof.
  intros Hc. induction x as [|c' x IH].
  - simpl. by rewrite Hc.
  - rewrite append_cons. simpl. destruct (is_word_char c'); [|reflexivity].
    rewrite IH. by destruct (take_word x).
Qed.

Lemma dot_groups_fuel f1 f2 s :
  String.length s <= f1 -> String.length s <= f2 -> dot_groups f1 s = dot_groups f2 s.
Proof.
  revert f2 s. induction f1 as [|f1 IH]; intros f2 s H1 H2.
  - destruct s; [|simpl in H1; lia]. by destruct f2.
  - destruct f2 as [|f2]; [destruct s; [done|simpl in H2; lia]|].
    destruct s as [|c s]; [done|]. simpl in H1, H2. simpl.
    destruct (Ascii.eqb c "."); [|done].
    pose proof (take_word_len s) as Hw. destruct (take_word s) as [w r]. simpl in Hw.
    destruct (String.eqb w EmptyString); [done|]. rewrite (IH f2 r) by lia. done.
Qed.

Lemma dot_groups_app f x y :
  String.length x <= f ->
  dot_groups f (x +++ String "{" y) = ((dot_groups f x).1, (dot_groups f x).2 +++ String "{" y).
Proof.
  revert x. induction f as [|f IH]; intros x Hx.
  - destruct x; [reflexivity|simpl in Hx; lia].
  - destruct x as [|c x]; [reflexivity|]. rewrite append_cons. simpl in Hx.
    change (dot_groups (S f) (String c (x +++ String "{" y))) with
      (if Ascii.eqb c "." then
         let '(w, r) := take_word (x +++ String "{" y) in
         if String.eqb w EmptyString then (EmptyString, String c (x +++ String "{" y))
         else let '(g, r') := dot_groups f r in ("." +++ w +++ g, r')
       else (EmptyString, String c (x +++ String "{" y))).
    change (dot_groups (S f) (String c x)) with
      (if Ascii.eqb c "." then
         let '(w, r) := take_word x in
         if String.eqb w EmptyString then (EmptyString, String c x)
         else let '(g, r') := dot_groups f r in ("." +++ w +++ g, r')
       else (EmptyString, String c x)).
    destruct (Ascii.eqb c "."); [|reflexivity].
    rewrite take_word_app by reflexivity.
    pose proof (take_word_len x) as Hw. destruct (take_word x) as [w r]. simpl in Hw |- *.
    destruct (String.eqb w EmptyString); [reflexivity|].
    rewrite IH by lia. by destruct (dot_groups f r).
Qed.

Lemma match_placeholder_other2 c r :
  c <> "{"%char -> match_placeholder (String "{" (String c r)) = None.
Proof.
  intros Hc. destruct c as [[] [] [] [] [] [] [] []]; try reflexivity. by exfalso.
Qed.

(** A match that starts in [x] never reaches into a following [{{]:
    neither [\w], [.] nor [}] matches [{]. *)
Lemma match_placeholder_app x y :
  x <> EmptyString ->
  match_placeholder (x +++ String "{" (String "{" y)) =
    match match_placeholder x with
    | Some (v, rest) => Some (v, rest +++ String "{" (String "{" y))
    | None => None
    end.
Proof.
  intros Hx. destruct x as [|c1 x1]; [done|]. rewrite append_cons.
  destruct (ascii_dec c1 "{") as [->|Hc1]; [|by rewrite !match_placeholder_other].
  destruct x1 as [|c2 x2]; [reflexivity|]. rewrite append_cons.
  destruct (ascii_dec c2 "{") as [->|Hc2]; [|by rewrite !match_placeholder_other2].
  cbv beta iota delta [match_placeholder].
  rewrite take_word_app by reflexivity.
  destruct (take_word x2) as [w s2]. simpl.
  destruct (String.eqb w EmptyString); [reflexivity|].
  rewrite dot_groups_app by (rewrite str_length_append; lia).
  rewrite (dot_groups_fuel (String.length (s2 +++ String "{" (String "{" y))) (String.length s2))
    by (rewrite ?str_length_append; lia).
  destruct (dot_groups (String.length s2) s2) as [g s3]. simpl.
  destruct s3 as [|c3 [|c4 r]]; [reflexivity| |].
  - destruct c3 as [[] [] [] [] [] [] [] []]; reflexivity.
  - rewrite !append_cons.
    destruct c3 as [[] [] [] [] [] [] [] []]; try reflexivity.
    destruct c4 as [[] [] [] [] [] [] [] []]; reflexivity.
Qed.

Lemma substitute_go_app f ctx a y :
  String.length (a +++ String "{" (String "{" y)) < f ->
  substitute_go f ctx (a +++ String "{" (String "{" y)) =
    substitute_go f ctx a +++ substitute_variables (String "{" (String "{" y)) ctx.
Proof.
  revert a. induction f as [|f IH]; intros a Hl; [lia|].
  destruct a as [|c a].
  - rewrite append_nil_l in Hl |- *.
    change (substitute_go (S f) ctx EmptyString) with EmptyString. rewrite append_nil_l.
    unfold substitute_variables. apply substitute_go_fuel; lia.
  - pose proof (match_placeholder_app (String c a) y ltac:(discriminate)) as Hm.
    rewrite append_cons in Hm |- *. rewrite !substitute_go_step, Hm.
    rewrite str_length_append in Hl. simpl in Hl.
    destruct (match_placeholder (String c a)) as [[v rest]|] eqn:Hp.
    + apply match_placeholder_len in Hp. simpl in Hp.
      rewrite IH by (rewrite str_length_append; simpl; lia).
      apply str_append_assoc.
    + rewrite IH by (rewrite str_length_append; simpl; lia). reflexivity.
Qed.

Lemma substitute_variables_app ctx a y :
  substitute_variables (a +++ String "{" (String "{" y)) ctx =
    substitute_variables a ctx +++ substitute_variables (String "{" (String "{" y)) ctx.
Proof.
  unfold substitute_variables at 1. rewrite substitute_go_app by lia.
  f_equal. unfold substitute_variables. apply substitute_go_fuel; [|lia].
  rewrite str_length_append. lia.
Qed.

(** [substitute_variables] copies text without a [{] unchanged, and
    replaces a [{{name}}] placeholder (a name of word characters) by
    [str()] of the context's value, or by ["{{MISSING:name}}"] when the
    context has no such key, wherever the placeholder stands: the text
    before it is processed on its own (no match starting there reaches
    into the placeholder), the replacement text is not scanned again,
    and the text after it is processed the same way. *)
Theorem substitute_variables_placeholders (ctx : dict) a n b :
  (str_has "{" a = false -> substitute_variables a ctx = a) /\
  (all_word n = true -> n <> EmptyString ->
     substitute_variables (a +++ "{{" +++ n +++ "}}" +++ b) ctx =
       substitute_variables a ctx +++
       (match dict_get n ctx with
        | Some v => py_str v
        | None => "{{MISSING:" +++ n +++ "}}"
        end) +++ substitute_variables b ctx).
Proof.
  split.
  - intros Ha. rewrite <- (append_empty_r a) at 1. rewrite substitute_variables_prefix by done.
    change (substitute_variables EmptyString ctx) with EmptyString. apply append_empty_r.
  - intros Hw Hne.
    change ("{{" +++ n +++ "}}" +++ b) with (String "{" (String "{" (n +++ "}}" +++ b))).
    rewrite substitute_variables_app. f_equal.
    unfold substitute_variables at 1. rewrite substitute_go_step.
    change (String "{" (String "{" (n +++ "}}" +++ b))) with ("{{" +++ n +++ "}}" +++ b).
    rewrite (match_placeholder_name n b Hw Hne), replace_var_name by done.
    f_equal. apply substitute_go_fuel; [|lia].
    rewrite !str_length_append. cbn. lia.
Qed.

Lemma substitute_variables_placeholders_witness :
  substitute_variables ("Reply as JSON {" +++ "{{" +++ "name" +++ "}}" +++ "}") [("name", JStr "Ann")] =
  substitute_variables "Reply as JSON {" [("name", JStr "Ann")] +++ "Ann" +++
  substitute_variables "}" [("name", JStr "Ann")].
Proof.
  apply (proj2 (substitute_variables_placeholders [("name", JStr "Ann")] "Reply as JSON {" "name"
                  "}")); [reflexivity|discriminate].
Defined.

(** A [{{outer.inner}}] placeholder, wherever it stands, looks [outer] up
    in the context and [inner] in the dict found there, and puts [str()]
    of that value in the text; when [outer] is missing or not a dict, or
    [inner] is missing, the placeholder becomes
    ["{{MISSING:outer.inner}}"].  The text before and after it is
    processed on its own. *)
Theorem substitute_variables_nested (ctx : dict) a n1 n2 b :
  all_word n1 = true -> all_word n2 = true ->
  n1 <> EmptyString -> n2 <> EmptyString ->
  substitute_variables (a +++ "{{" +++ n1 +++ "." +++ n2 +++ "}}" +++ b) ctx =
    substitute_variables a ctx +++
    (let missing := "{{MISSING:" +++ (n1 +++ "." +++ n2) +++ "}}" in
     match dict_get n1 ctx with
     | Some (JObj d) => match dict_get n2 d with Some v => py_str v | None => missing end
     | _ => missing
     end) +++ substitute_variables b ctx.
Proof.
  intros H1 H2 Hn1 Hn2.
  change ("{{" +++ n1 +++ "." +++ n2 +++ "}}" +++ b) with
    (String "{" (String "{" (n1 +++ "." +++ n2 +++ "}}" +++ b))).
  rewrite substitute_variables_app. f_equal.
  unfold substitute_variables at 1.
  rewrite substitute_go_step.
  change (String "{" (String "{" (n1 +++ "." +++ n2 +++ "}}" +++ b)))
    with ("{{" +++ n1 +++ "." +++ n2 +++ "}}" +++ b).
  rewrite match_placeholder_dotted by done.
  unfold replace_var. rewrite py_split_two by done.
  f_equal.
  - simpl. destruct (dict_get n1 ctx) as [[|b0|z|fl|s0|l|d]|]; try reflexivity.
    simpl. by destruct (dict_get n2 d).
  - apply substitute_go_fuel; [|lia].
    rewrite !str_length_append. cbn. lia.
Qed.

Lemma substitute_variables_nested_witness :
  substitute_variables ("Format: {x}. Re: " +++ "{{" +++ "payload" +++ "." +++ "subject" +++ "}}" +++ EmptyString)
    [("payload", JObj [("subject", JStr "Invoice 12")])] =
  substitute_variables "Format: {x}. Re: " [("payload", JObj [("subject", JStr "Invoice 12")])]
  +++ "Invoice 12" +++ EmptyString.
Proof.
  apply (substitute_variables_nested [("payload", JObj [("subject", JStr "Invoice 12")])]
           "Format: {x}. Re: " "payload" "subject" EmptyString); try reflexivity; discriminate.
Defined.

(** * Properties of the orchestrator's tool handler *)

(** The orchestrator's [handle_tool_call] answers an unknown tool name
    with an error dict; for its three tools a missing required input
    ([department] and [task_context]; [approval_type] and [summary];
    [event_type] and [description]) raises a [KeyError] instead of
    answering; otherwise [route_to_department] is routed with the
    priority defaulting to ["medium"], and an approval request is always
    answered as pending with the id ["approval_<stamp>"]. *)
Theorem orchestrator_tool_handler_inputs registered dept_agent_name dept_execute stamp now
    tool_name (tool_input : dict) :
  let h := orchestrator_tool_handler registered dept_agent_name dept_execute stamp now in
  (tool_name ∉ ["route_to_department"; "request_human_approval"; "log_audit_event"] ->
     h tool_name tool_input = Ok (JObj [("error", JStr ("Unknown tool: " +++ tool_name))])) /\
  (forall k, k ∈ ["department"; "task_context"] -> dict_get k tool_input = None ->
     exists k', h "route_to_department" tool_input = Raise (key_error k')) /\
  (forall k, k ∈ ["approval_type"; "summary"] -> dict_get k tool_input = None ->
     exists k', h "request_human_approval" tool_input = Raise (key_error k')) /\
  (forall k, k ∈ ["event_type"; "description"] -> dict_get k tool_input = None ->
     exists k', h "log_audit_event" tool_input = Raise (key_error k')) /\
  (forall d tc, dict_get "department" tool_input = Some d ->
     dict_get "task_context" tool_input = Some tc ->
     h "route_to_department" tool_input =
       route_to_department registered dept_agent_name dept_execute stamp d tc
         (match dict_get "priority" tool_input with Some p => p | None => JStr "medium" end)) /\
  (forall a sm, dict_get "approval_type" tool_input = Some a ->
     dict_get "summary" tool_input = Some sm ->
     exists d, h "request_human_approval" tool_input = Ok (JObj d) /\
       dict_get "status" d = Some (JStr "pending") /\
       dict_get "approval_id" d = Some (JStr ("approval_" +++ stamp))).
Proof.
  intros h. subst h. unfold orchestrator_tool_handler, orchestrator_handle_tool_call, dict_getitem.
  split; [|split; [|split; [|split; [|split]]]].
  - intros Hn.
    destruct (String.eqb_spec tool_name "route_to_department") as [->|_]; [set_solver|].
    destruct (String.eqb_spec tool_name "request_human_approval") as [->|_]; [set_solver|].
    destruct (String.eqb_spec tool_name "log_audit_event") as [->|_]; [set_solver|].
    reflexivity.
  - intros k Hk Hm. simpl.
    destruct (dict_get "department" tool_input) eqn:Hd; [|by eexists].
    destruct (dict_get "task_context" tool_input) eqn:Ht; [|by eexists].
    exfalso. apply elem_of_cons in Hk as [->|Hk]; [congruence|].
    apply list_elem_of_singleton in Hk as ->. congruence.
  - intros k Hk Hm. simpl.
    destruct (dict_get "approval_type" tool_input) eqn:Hd; [|by eexists].
    destruct (dict_get "summary" tool_input) eqn:Ht; [|by eexists].
    exfalso. apply elem_of_cons in Hk as [->|Hk]; [congruence|].
    apply list_elem_of_singleton in Hk as ->. congruence.
  - intros k Hk Hm. simpl.
    destruct (dict_get "event_type" tool_input) eqn:Hd; [|by eexists].
    destruct (dict_get "description" tool_input) eqn:Ht; [|by eexists].
    exfalso. apply elem_of_cons in Hk as [->|Hk]; [congruence|].
    apply list_elem_of_singleton in Hk as ->. congruence.
  - intros d tc Hd Ht. simpl. by rewrite Hd, Ht.
  - intros a sm Ha Hs. simpl. rewrite Ha, Hs. eexists. split; [reflexivity|]. split; reflexivity.
Qed.

Lemma orchestrator_tool_handler_inputs_witness :
  exists k', orchestrator_tool_handler [] (fun _ => "FinanceAgent") (fun _ _ _ => Raise (key_error "x"))
               "20260101_000000" "2026-01-01T00:00:00" "route_to_department"
               [("department", JStr "finance")] = Raise (key_error k').
Proof.
  apply (proj1 (proj2 (orchestrator_tool_handler_inputs [] (fun _ => "FinanceAgent")
           (fun _ _ _ => Raise (key_error "x")) "20260101_000000" "2026-01-01T00:00:00"
           "route_to_department" [("department", JStr "finance")])) "task_context").
  - set_solver.
  - reflexivity.
Defined.

(** * Properties of the conversation driver *)

(** On its first turn, [invoke_with_tools] returns a success with the
    text blocks of the response and its token counts as soon as the stop
    reason is not [tool_use] (so a response cut by [max_tokens] also
    counts as a success), after one service call; a service failure on
    that call is reported as ["Error during tool execution: ..."] with no
    tokens. *)
Theorem invoke_with_tools_first_turn service handler prompt max_turns :
  0 < max_turns ->
  (forall resp, service 0 [MsgUser prompt] = Ok resp -> stop_reason resp <> "tool_use" ->
     invoke_with_tools service handler prompt max_turns =
       ((true, blocks_text (content resp), (usage_input_tokens resp, usage_output_tokens resp)), 1))
  /\
  (forall e, service 0 [MsgUser prompt] = Raise e ->
     invoke_with_tools service handler prompt max_turns =
       ((false, "Error during tool execution: " +++ exc_str e, (0, 0)%Z), 1)).
Proof.
  intros Hm. destruct max_turns as [|m]; [lia|]. unfold invoke_with_tools. simpl.
  split.
  - intros resp Hr Hs. rewrite Hr.
    destruct (String.eqb_spec (stop_reason resp) "end_turn"); [done|].
    destruct (String.eqb_spec (stop_reason resp) "tool_use"); done.
  - intros e He. by rewrite He.
Qed.

Lemma invoke_with_tools_first_turn_witness :
  invoke_with_tools (fun (_ : nat) (_ : list message) => Ok (mk_response "max_tokens" [TextBlock "partial"] 7 4))
    (base_handle_tool_call "Orchestrator") "classify" 10 =
  ((true, blocks_text [TextBlock "partial"], (7%Z, 4%Z)), 1).
Proof.
  apply (proj1 (invoke_with_tools_first_turn
           (fun (_ : nat) (_ : list message) => Ok (mk_response "max_tokens" [TextBlock "partial"] 7 4))
           (base_handle_tool_call "Orchestrator") "classify" 10 ltac:(lia))
           (mk_response "max_tokens" [TextBlock "partial"] 7 4) eq_refl).
  discriminate.
Defined.

Lemma run_tool_calls_base agent_name bs :
  exists rs, run_tool_calls (base_handle_tool_call agent_name) bs = Ok rs.
Proof.
  induction bs as [|b bs [rs IH]]; [by eexists|].
  destruct b; simpl; rewrite ?IH; by eexists.
Qed.

(** With the default [handle_tool_call] (every tool answered by a "not
    implemented" error dict, never raising), the tool loop fails only when
    the turn budget runs out or the service itself raises. *)
Theorem base_tool_loop_failures service agent_name max_turns n turn messages tokens out tok k :
  tool_loop service (base_handle_tool_call agent_name) max_turns n turn messages tokens =
    ((false, out, tok), k) ->
  out = "Exceeded maximum turns (" +++ pretty max_turns +++ ")" \/
  exists e t msgs, service t msgs = Raise e /\ out = tool_error e.
Proof.
  revert turn messages tokens. induction n as [|n IH]; intros turn messages tokens H; simpl in H.
  - injection H as <- _ _. by left.
  - destruct (service turn messages) as [resp|e] eqn:Hs.
    + destruct (String.eqb (stop_reason resp) "end_turn"); [discriminate|].
      destruct (String.eqb (stop_reason resp) "tool_use"); [|discriminate].
      destruct (run_tool_calls_base agent_name (content resp)) as [rs Hrs].
      rewrite Hrs in H. by apply IH in H.
    + injection H as <- _ _. right. by exists e, turn, messages.
Qed.

Lemma base_tool_loop_failures_witness :
  "Exceeded maximum turns (" +++ pretty 2 +++ ")" =
    "Exceeded maximum turns (" +++ pretty 2 +++ ")" \/
  exists e t msgs, (fun (_ : nat) (_ : list message) => Ok (mk_response "tool_use" [ToolUseBlock "tu1" "search" []] 1 1))
                     t msgs = Raise e /\
                   "Exceeded maximum turns (" +++ pretty 2 +++ ")" = tool_error e.
Proof.
  apply (base_tool_loop_failures
           (fun (_ : nat) (_ : list message) => Ok (mk_response "tool_use" [ToolUseBlock "tu1" "search" []] 1 1))
           "Orchestrator" 2 2 0 [MsgUser "go"] (0, 0)%Z _ (2, 2)%Z 2).
  vm_compute. reflexivity.
Defined.
